(** * International Standard Atmosphere calculations: model and properties

    Shallow embedding of [src/lib/isa-calculations.ts] and of the two
    computations of [src/pages/Calculator.tsx] that call it, in two
    models of the TypeScript type [number].

    In the first model [number] is the real numbers [R] of the Standard
    Library: a decimal literal denotes the decimal it spells, [+ - * /]
    are the field operations, [>=], [<=] and [===] are the order and the
    equality of [R], and the functions of the [Math] object are the
    corresponding real functions.  It carries the properties of the
    formulas, of the table and of the layer resolution; the lemma
    [calculateAtmosphere_well_defined] shows that it divides by no zero
    and takes no power or root outside the domain where the real
    function is the intended one.

    In the second model, the module [B64], [number] is binary64 with
    its rounding, overflow, signed zeros and NaN.  It carries the
    properties that depend on them: the end of the profile loop, the
    altitudes at which samples are taken, the unit round trip and the
    guard of the calculator page.

    The [for] loop of [generateProfile] may run forever; it is modelled
    with fuel, one unit per iteration. *)

From Stdlib Require Import Reals Lra Lia List String ZArith Sorted.
From Stdlib Require Floats.
Import ListNotations.

Open Scope R_scope.

(** ** The [Math] object *)

Module Math.
Definition max (a b : R) : R := Rmax a b.
Definition min (a b : R) : R := Rmin a b.
Definition exp (x : R) : R := Rtrigo_def.exp x.
(** [Math.pow x y] for a positive base, the only case the program
    reaches (see [calculateAtmosphere_well_defined]). *)
Definition pow (x y : R) : R := Rpower x y.
(** [Math.sqrt x] for a non-negative argument. *)
Definition sqrt (x : R) : R := R_sqrt.sqrt x.
End Math.

(** ** Physical constants *)

Module ISA_CONSTANTS.
Definition g0 := 9.80665.
Definition M := 0.0289644.
Definition Rstar := 8.31432.
Definition gamma := 1.4.
Definition T0 := 288.15.
Definition P0 := 101325.
Definition rho0 := 1.225.
(* Declared last: inside this module the name hides the type of reals. *)
Definition R := 287.05287.
End ISA_CONSTANTS.

(** ** Atmospheric layers *)

Record AtmosphericLayer : Type := mkLayer {
  name : string;
  baseAltitude : R;
  baseTemperature : R;
  lapseRate : R;
  basePressure : R
}.

Definition Troposphere := mkLayer "Troposphere" 0 288.15 (-0.0065) 101325.
Definition Tropopause := mkLayer "Tropopause" 11000 216.65 0 22632.1.
Definition StratosphereI := mkLayer "Stratosphere I" 20000 216.65 0.001 5474.89.
Definition StratosphereII := mkLayer "Stratosphere II" 32000 228.65 0.0028 868.019.
Definition Stratopause := mkLayer "Stratopause" 47000 270.65 0 110.906.
Definition MesosphereI := mkLayer "Mesosphere I" 51000 270.65 (-0.0028) 66.9389.
Definition MesosphereII := mkLayer "Mesosphere II" 71000 214.65 (-0.002) 3.95642.
Definition Mesopause := mkLayer "Mesopause" 86000 186.87 0 0.3734.

Definition LAYERS : list AtmosphericLayer :=
  [ Troposphere; Tropopause; StratosphereI; StratosphereII;
    Stratopause; MesosphereI; MesosphereII; Mesopause ].

(** [LAYERS[i]]; every index the program uses is in range. *)
Definition LAYERS_at (i : nat) : AtmosphericLayer := nth i LAYERS Troposphere.

(** The loop [for (i = LAYERS.length - 1; i >= 0; i--)] of [getLayer]:
    [getLayer_loop (S i)] is the iteration at index [i], [getLayer_loop 0]
    is the code after the loop. *)
Fixpoint getLayer_loop (n : nat) (altitudeM : R) : AtmosphericLayer :=
  match n with
  | O => LAYERS_at 0
  | S i =>
      if Rge_dec altitudeM (baseAltitude (LAYERS_at i))
      then LAYERS_at i
      else getLayer_loop i altitudeM
  end.

Definition getLayer (altitudeM : R) : AtmosphericLayer :=
  getLayer_loop (List.length LAYERS) altitudeM.

Definition calculateTemperature (altitudeM : R) : R :=
  let layer := getLayer altitudeM in
  let deltaH := altitudeM - baseAltitude layer in
  baseTemperature layer + lapseRate layer * deltaH.

Definition calculatePressure (altitudeM : R) : R :=
  let layer := getLayer altitudeM in
  let deltaH := altitudeM - baseAltitude layer in
  let T := calculateTemperature altitudeM in
  if Req_dec_T (lapseRate layer) 0 then
    basePressure layer
    * Math.exp ((- ISA_CONSTANTS.g0 * deltaH) / (ISA_CONSTANTS.R * T))
  else
    let exponent := - ISA_CONSTANTS.g0 / (lapseRate layer * ISA_CONSTANTS.R) in
    basePressure layer * Math.pow (T / baseTemperature layer) exponent.

Definition calculateDensity (pressure temperature : R) : R :=
  pressure / (ISA_CONSTANTS.R * temperature).

Definition calculateSpeedOfSound (temperature : R) : R :=
  Math.sqrt (ISA_CONSTANTS.gamma * ISA_CONSTANTS.R * temperature).

Definition calculateDynamicViscosity (temperature : R) : R :=
  let mu0 := 1.7894e-5 in
  let T0 := 288.15 in
  let S := 110.4 in
  mu0 * Math.pow (temperature / T0) 1.5 * ((T0 + S) / (temperature + S)).

(** ** Results *)

Record AtmosphericResult : Type := mkResult {
  altitude : R;
  temperature : R;
  temperatureCelsius : R;
  pressure : R;
  density : R;
  speedOfSound : R;
  dynamicViscosity : R;
  kinematicViscosity : R;
  layer : AtmosphericLayer;
  layerName : string
}.

Definition calculateAtmosphere (altitudeM : R) : AtmosphericResult :=
  let clampedAlt := Math.max 0 (Math.min 86000 altitudeM) in
  let layer := getLayer clampedAlt in
  let temperature := calculateTemperature clampedAlt in
  let pressure := calculatePressure clampedAlt in
  let density := calculateDensity pressure temperature in
  let speedOfSound := calculateSpeedOfSound temperature in
  let dynamicViscosity := calculateDynamicViscosity temperature in
  let kinematicViscosity := dynamicViscosity / density in
  {| altitude := clampedAlt;
     temperature := temperature;
     temperatureCelsius := temperature - 273.15;
     pressure := pressure;
     density := density;
     speedOfSound := speedOfSound;
     dynamicViscosity := dynamicViscosity;
     kinematicViscosity := kinematicViscosity;
     layer := layer;
     layerName := name layer |}.

(** ** Profiles *)

(** The loop [for (alt = startAltM; alt <= endAltM; alt += stepM)] of
    [generateProfile], with [results] the array built so far.  Each
    iteration spends one unit of [fuel]; [None] means the fuel ran out
    before the loop condition failed. *)
Fixpoint generateProfile_loop (fuel : nat) (alt endAltM stepM : R)
    (results : list AtmosphericResult) : option (list AtmosphericResult) :=
  match fuel with
  | O => None
  | S fuel' =>
      if Rle_dec alt endAltM
      then generateProfile_loop fuel' (alt + stepM) endAltM stepM
             (results ++ [calculateAtmosphere alt])
      else Some results
  end.

Definition generateProfile (fuel : nat) (startAltM endAltM stepM : R)
    : option (list AtmosphericResult) :=
  generateProfile_loop fuel startAltM endAltM stepM [].

(** ** Unit conversion *)

Module AltitudeUnit.
Inductive t : Type := m | km | ft.
End AltitudeUnit.

Module PressureUnit.
Inductive t : Type := Pa | hPa | mbar | atm | psi.
End PressureUnit.

(** The tables of [UNITS] that the two converters read; the temperature,
    density and velocity tables are read by no function of the file. *)
Module UNITS.
Record entry : Type := mkEntry {
    factor : R;
    symbol : string;
    name : string
  }.

Definition altitude (u : AltitudeUnit.t) : entry :=
    match u with
    | AltitudeUnit.m => mkEntry 1 "m" "meters"
    | AltitudeUnit.km => mkEntry 1000 "km" "kilometers"
    | AltitudeUnit.ft => mkEntry 0.3048 "ft" "feet"
    end.

Definition pressure (u : PressureUnit.t) : entry :=
    match u with
    | PressureUnit.Pa => mkEntry 1 "Pa" "Pascal"
    | PressureUnit.hPa => mkEntry 100 "hPa" "hectopascal"
    | PressureUnit.mbar => mkEntry 100 "mbar" "millibar"
    | PressureUnit.atm => mkEntry 101325 "atm" "atmosphere"
    | PressureUnit.psi => mkEntry 6894.76 "psi" "pounds per square inch"
    end.
End UNITS.

Definition convertAltitude (value : R) (from to : AltitudeUnit.t) : R :=
  let meters := value * UNITS.factor (UNITS.altitude from) in
  meters / UNITS.factor (UNITS.altitude to).

Definition convertPressure (value : R) (from to : PressureUnit.t) : R :=
  let pascals := value * UNITS.factor (UNITS.pressure from) in
  pascals / UNITS.factor (UNITS.pressure to).

(** ** The calculator page

    The [profileData] memo of [src/pages/Calculator.tsx]; the [result]
    memo, whose guard depends on the signed zeros and NaN, is in the
    binary64 model. *)

(** The [profileData] memo. *)
Definition Calculator_profileData (fuel : nat)
    : option (list AtmosphericResult) :=
  generateProfile fuel 0 86000 1000.

(** * Definitions used to state the properties *)

(** The saturation of [h] into the interval from [lo] to [hi]. *)
Definition clamp (lo hi h : R) : R :=
  if Rlt_dec h lo then lo else if Rlt_dec hi h then hi else h.

(** The two closed forms, as the specification words them. *)
Definition isothermal_pressure (l : AtmosphericLayer) (h T : R) : R :=
  basePressure l
  * exp (- (ISA_CONSTANTS.g0 * (h - baseAltitude l)) / (ISA_CONSTANTS.R * T)).

Definition gradient_pressure (l : AtmosphericLayer) (T : R) : R :=
  basePressure l
  * Rpower (T / baseTemperature l)
      (- ISA_CONSTANTS.g0 / (lapseRate l * ISA_CONSTANTS.R)).

(** Which layer [getLayer] resolves, by the position of the altitude
    among the base altitudes. *)
Inductive resolves (h : R) : AtmosphericLayer -> Prop :=
  | res_Troposphere : h < 11000 -> resolves h Troposphere
  | res_Tropopause : 11000 <= h < 20000 -> resolves h Tropopause
  | res_StratosphereI : 20000 <= h < 32000 -> resolves h StratosphereI
  | res_StratosphereII : 32000 <= h < 47000 -> resolves h StratosphereII
  | res_Stratopause : 47000 <= h < 51000 -> resolves h Stratopause
  | res_MesosphereI : 51000 <= h < 71000 -> resolves h MesosphereI
  | res_MesosphereII : 71000 <= h < 86000 -> resolves h MesosphereII
  | res_Mesopause : 86000 <= h -> resolves h Mesopause.

(** The linear formula of layer [i] evaluated at the base altitude of
    layer [i + 1], the boundary between the two. *)
Definition lower_formula_at_boundary (i : nat) : R :=
  let lower := LAYERS_at i in
  let upper := LAYERS_at (S i) in
  baseTemperature lower
  + lapseRate lower * (baseAltitude upper - baseAltitude lower).

(** The table invariant at the boundary between layers [i] and [i + 1]. *)
Definition boundary_matches (i : nat) : Prop :=
  lower_formula_at_boundary i = baseTemperature (LAYERS_at (S i)).

(** The altitude of sample [j]: [stepM] added [j] times to [startAltM]. *)
Definition sample_altitude (startAltM stepM : R) (j : nat) : R :=
  startAltM + INR j * stepM.

(** The error kinds the specification names for caller misuse. *)
Inductive ErrorKind : Type := UnknownUnit | InvalidStep.

(** How a call ends: by returning a value or by throwing. *)
Inductive Completion (A : Type) : Type :=
  | Normal (value : A)
  | Throw (kind : ErrorKind).
Arguments Normal {A} value.
Arguments Throw {A} kind.

(** A call of [generateProfile].  The function has no [throw] statement
    and calls nothing that throws, so a call that ends returns its array. *)
Definition generateProfile_call (fuel : nat) (startAltM endAltM stepM : R)
    : option (Completion (list AtmosphericResult)) :=
  option_map Normal (generateProfile fuel startAltM endAltM stepM).


(** * The program on binary64 numbers

    The same functions with [number] as the binary64 floating-point
    numbers of the kernel ([PrimFloat]): a decimal literal denotes the
    nearest double, each of [+ - * /] and [Math.sqrt] is the correctly
    rounded IEEE 754 operation, and [<], [<=], [===] are the IEEE
    comparisons, all false on NaN.  ECMAScript leaves the values of
    [Math.exp] and [Math.pow] to the implementation; they are the
    parameters [Math_exp] and [Math_pow] of the functions that call
    them.  The properties that depend on rounding, overflow, the signed
    zeros or NaN are stated on this model. *)

Module B64.
Import PrimFloat.
#[local] Set Warnings "-inexact-float".
Local Open Scope float_scope.

Module Math.
(** [Math.max] and [Math.min] of two arguments: NaN if an argument is
    NaN, and of two zeros the positive one is the larger. *)
Definition max (a b : float) : float :=
  match a ?= b with
  | FLt => b
  | FGt => a
  | FEq => if get_sign a then b else a
  | FNotComparable => nan
  end.
Definition min (a b : float) : float :=
  match a ?= b with
  | FLt => a
  | FGt => b
  | FEq => if get_sign a then a else b
  | FNotComparable => nan
  end.
Definition sqrt (x : float) : float := PrimFloat.sqrt x.
End Math.

Module ISA_CONSTANTS.
Definition g0 := 9.80665.
Definition R := 287.05287.
Definition M := 0.0289644.
Definition Rstar := 8.31432.
Definition gamma := 1.4.
Definition T0 := 288.15.
Definition P0 := 101325.
Definition rho0 := 1.225.
End ISA_CONSTANTS.

Record AtmosphericLayer : Type := mkLayer {
  name : string;
  baseAltitude : float;
  baseTemperature : float;
  lapseRate : float;
  basePressure : float
}.

Definition LAYERS : list AtmosphericLayer :=
  [ mkLayer "Troposphere" 0 288.15 (-0.0065) 101325;
    mkLayer "Tropopause" 11000 216.65 0 22632.1;
    mkLayer "Stratosphere I" 20000 216.65 0.001 5474.89;
    mkLayer "Stratosphere II" 32000 228.65 0.0028 868.019;
    mkLayer "Stratopause" 47000 270.65 0 110.906;
    mkLayer "Mesosphere I" 51000 270.65 (-0.0028) 66.9389;
    mkLayer "Mesosphere II" 71000 214.65 (-0.002) 3.95642;
    mkLayer "Mesopause" 86000 186.87 0 0.3734 ].

Definition LAYERS_at (i : nat) : AtmosphericLayer :=
  nth i LAYERS (mkLayer "Troposphere" 0 288.15 (-0.0065) 101325).

Fixpoint getLayer_loop (n : nat) (altitudeM : float) : AtmosphericLayer :=
  match n with
  | O => LAYERS_at 0
  | S i =>
      if baseAltitude (LAYERS_at i) <=? altitudeM
      then LAYERS_at i
      else getLayer_loop i altitudeM
  end.

Definition getLayer (altitudeM : float) : AtmosphericLayer :=
  getLayer_loop (List.length LAYERS) altitudeM.

Definition calculateTemperature (altitudeM : float) : float :=
  let layer := getLayer altitudeM in
  let deltaH := altitudeM - baseAltitude layer in
  baseTemperature layer + lapseRate layer * deltaH.

Definition calculateDensity (pressure temperature : float) : float :=
  pressure / (ISA_CONSTANTS.R * temperature).

Definition calculateSpeedOfSound (temperature : float) : float :=
  Math.sqrt (ISA_CONSTANTS.gamma * ISA_CONSTANTS.R * temperature).

Record AtmosphericResult : Type := mkResult {
  altitude : float;
  temperature : float;
  temperatureCelsius : float;
  pressure : float;
  density : float;
  speedOfSound : float;
  dynamicViscosity : float;
  kinematicViscosity : float;
  layer : AtmosphericLayer;
  layerName : string
}.

Definition UNITS_altitude_factor (u : AltitudeUnit.t) : float :=
  match u with
  | AltitudeUnit.m => 1
  | AltitudeUnit.km => 1000
  | AltitudeUnit.ft => 0.3048
  end.

Definition convertAltitude (value : float) (from to : AltitudeUnit.t)
    : float :=
  let meters := value * UNITS_altitude_factor from in
  meters / UNITS_altitude_factor to.

(** The altitude held by [alt] after [j] executions of [alt += stepM]. *)
Fixpoint running_altitude (alt stepM : float) (j : nat) : float :=
  match j with
  | O => alt
  | S j' => running_altitude (alt + stepM) stepM j'
  end.

Section WithMath.

Variable Math_exp : float -> float.
Variable Math_pow : float -> float -> float.

Definition calculatePressure (altitudeM : float) : float :=
  let layer := getLayer altitudeM in
  let deltaH := altitudeM - baseAltitude layer in
  let T := calculateTemperature altitudeM in
  if lapseRate layer =? 0 then
    basePressure layer
    * Math_exp ((- ISA_CONSTANTS.g0 * deltaH) / (ISA_CONSTANTS.R * T))
  else
    let exponent := - ISA_CONSTANTS.g0 / (lapseRate layer * ISA_CONSTANTS.R) in
    basePressure layer * Math_pow (T / baseTemperature layer) exponent.

Definition calculateDynamicViscosity (temperature : float) : float :=
  let mu0 := 1.7894e-5 in
  let T0 := 288.15 in
  let S := 110.4 in
  mu0 * Math_pow (temperature / T0) 1.5 * ((T0 + S) / (temperature + S)).

Definition calculateAtmosphere (altitudeM : float) : AtmosphericResult :=
  let clampedAlt := Math.max 0 (Math.min 86000 altitudeM) in
  let layer := getLayer clampedAlt in
  let temperature := calculateTemperature clampedAlt in
  let pressure := calculatePressure clampedAlt in
  let density := calculateDensity pressure temperature in
  let speedOfSound := calculateSpeedOfSound temperature in
  let dynamicViscosity := calculateDynamicViscosity temperature in
  let kinematicViscosity := dynamicViscosity / density in
  {| altitude := clampedAlt;
     temperature := temperature;
     temperatureCelsius := temperature - 273.15;
     pressure := pressure;
     density := density;
     speedOfSound := speedOfSound;
     dynamicViscosity := dynamicViscosity;
     kinematicViscosity := kinematicViscosity;
     layer := layer;
     layerName := name layer |}.

Fixpoint generateProfile_loop (fuel : nat) (alt endAltM stepM : float)
    (results : list AtmosphericResult) : option (list AtmosphericResult) :=
  match fuel with
  | O => None
  | S fuel' =>
      if alt <=? endAltM
      then generateProfile_loop fuel' (alt + stepM) endAltM stepM
             (results ++ [calculateAtmosphere alt])
      else Some results
  end.

Definition generateProfile (fuel : nat) (startAltM endAltM stepM : float)
    : option (list AtmosphericResult) :=
  generateProfile_loop fuel startAltM endAltM stepM [].

(** The samples pushed while [alt] runs through its first [k] values. *)
Definition profile_samples (alt stepM : float) (k : nat)
    : list AtmosphericResult :=
  map (fun j => calculateAtmosphere (running_altitude alt stepM j)) (seq 0 k).

(** The [result] memo of the calculator page; [value] is what
    [parseFloat] returned. *)
Definition Calculator_result (value : float) (altitudeUnit : AltitudeUnit.t)
    : option AtmosphericResult :=
  if is_nan value then None
  else
    let altitudeM := convertAltitude value altitudeUnit AltitudeUnit.m in
    if ((altitudeM <? 0) || (86000 <? altitudeM))%bool then None
    else Some (calculateAtmosphere altitudeM).

End WithMath.

(** ** Definitions used to state the properties of the binary64 program *)








End B64.

(** * Properties *)

(** ** Layer resolution *)

Lemma getLayer_resolves (h : R) : resolves h (getLayer h).
Proof.
  unfold getLayer; cbn [List.length LAYERS getLayer_loop].
  unfold LAYERS_at; cbn [nth LAYERS].
  repeat match goal with
  | |- context [Rge_dec ?a ?b] => destruct (Rge_dec a b); cbn [baseAltitude] in *
  end.
  all: first
    [ apply res_Mesopause; cbn in *; lra
    | apply res_MesosphereII; cbn in *; lra
    | apply res_MesosphereI; cbn in *; lra
    | apply res_Stratopause; cbn in *; lra
    | apply res_StratosphereII; cbn in *; lra
    | apply res_StratosphereI; cbn in *; lra
    | apply res_Tropopause; cbn in *; lra
    | apply res_Troposphere; cbn in *; lra ].
Qed.

(** Case analysis on the layer of [h]: one goal per layer, with the
    bounds on [h] and the value of [getLayer h] in the context. *)
Ltac layer_cases h :=
  let H := fresh "Hlayer" in
  let E := fresh "Elayer" in
  let l := fresh "resolved" in
  pose proof (getLayer_resolves h) as H;
  remember (getLayer h) as l eqn:E in H;
  destruct H; symmetry in E.

Lemma calculateTemperature_in_layer (h : R) :
  calculateTemperature h =
    baseTemperature (getLayer h)
    + lapseRate (getLayer h) * (h - baseAltitude (getLayer h)).
Proof. reflexivity. Qed.

(** The temperature is positive at every altitude, so no division by
    [R * T], no [T / Tb] and no square root leaves the domain on which
    the real functions agree with the [Math] ones. *)
Lemma calculateTemperature_pos (h : R) : 0 < calculateTemperature h.
Proof.
  rewrite calculateTemperature_in_layer.
  layer_cases h; rewrite Elayer; cbn; lra.
Qed.

Lemma temperature_ratio_pos (h : R) :
  0 < calculateTemperature h / baseTemperature (getLayer h).
Proof.
  apply Rdiv_lt_0_compat; [apply calculateTemperature_pos|].
  layer_cases h; rewrite Elayer; cbn; lra.
Qed.

(** ** Clamping *)

Lemma max_min_clamp (h : R) :
  Math.max 0 (Math.min 86000 h) = clamp 0 86000 h.
Proof.
  unfold Math.max, Math.min, clamp, Rmax, Rmin.
  destruct (Rle_dec 86000 h).
  - destruct (Rle_dec 0 86000); [|lra].
    destruct (Rlt_dec h 0); [lra|]. destruct (Rlt_dec 86000 h); lra.
  - destruct (Rle_dec 0 h); destruct (Rlt_dec h 0); try lra.
    destruct (Rlt_dec 86000 h); lra.
Qed.

Lemma clamp_bounds (h : R) : 0 <= clamp 0 86000 h <= 86000.
Proof.
  unfold clamp.
  destruct (Rlt_dec h 0); [lra|]. destruct (Rlt_dec 86000 h); lra.
Qed.

Lemma clamp_fixes (h : R) : 0 <= h <= 86000 -> clamp 0 86000 h = h.
Proof.
  intros Hh. unfold clamp.
  destruct (Rlt_dec h 0); [lra|]. destruct (Rlt_dec 86000 h); lra.
Qed.

Lemma clamp_idempotent (h : R) :
  clamp 0 86000 (clamp 0 86000 h) = clamp 0 86000 h.
Proof. apply clamp_fixes, clamp_bounds. Qed.

Lemma calculateAtmosphere_altitude (h : R) :
  altitude (calculateAtmosphere h) = clamp 0 86000 h.
Proof. unfold calculateAtmosphere; cbn [altitude]. apply max_min_clamp. Qed.

(** [calculateAtmosphere] reads its argument only through the clamped
    altitude. *)
Lemma calculateAtmosphere_of_clamped (h c : R) :
  Math.max 0 (Math.min 86000 h) = c ->
  Math.max 0 (Math.min 86000 c) = c ->
  calculateAtmosphere h = calculateAtmosphere c.
Proof.
  intros Hh Hc. unfold calculateAtmosphere. rewrite Hh, Hc. reflexivity.
Qed.

(** C1: for every altitude [h], [calculateAtmosphere h] is
    [calculateAtmosphere] of [h] clamped into the interval from 0 to
    86000, the clamped value lies in that interval and is the result's
    [altitude] field; in particular -500 gives the result of 0 and 200000
    gives the result of 86000. *)
Theorem calculateAtmosphere_clamps :
  (forall h : R,
      calculateAtmosphere h = calculateAtmosphere (clamp 0 86000 h)
      /\ altitude (calculateAtmosphere h) = clamp 0 86000 h
      /\ 0 <= altitude (calculateAtmosphere h) <= 86000)
  /\ calculateAtmosphere (-500) = calculateAtmosphere 0
  /\ calculateAtmosphere 200000 = calculateAtmosphere 86000.
Proof.
  assert (Hgen : forall h,
             calculateAtmosphere h = calculateAtmosphere (clamp 0 86000 h)).
  { intros h. apply calculateAtmosphere_of_clamped.
    - apply max_min_clamp.
    - rewrite max_min_clamp. apply clamp_idempotent. }
  split; [|split].
  - intros h. split; [apply Hgen|].
    rewrite calculateAtmosphere_altitude.
    split; [reflexivity | apply clamp_bounds].
  - rewrite (Hgen (-500)). f_equal.
    unfold clamp. destruct (Rlt_dec (-500) 0); [reflexivity | lra].
  - rewrite (Hgen 200000). f_equal.
    unfold clamp. destruct (Rlt_dec 200000 0); [lra|].
    destruct (Rlt_dec 86000 200000); [reflexivity | lra].
Qed.

(** ** Pressure *)

Lemma calculatePressure_isothermal (h : R) :
  lapseRate (getLayer h) = 0 ->
  calculatePressure h =
    isothermal_pressure (getLayer h) h (calculateTemperature h).
Proof.
  intros HL. unfold calculatePressure, isothermal_pressure, Math.exp.
  destruct (Req_dec_T (lapseRate (getLayer h)) 0) as [_|Hne];
    [|contradiction].
  do 3 f_equal. ring.
Qed.

Lemma calculatePressure_gradient (h : R) :
  lapseRate (getLayer h) <> 0 ->
  calculatePressure h = gradient_pressure (getLayer h) (calculateTemperature h).
Proof.
  intros HL. unfold calculatePressure, gradient_pressure, Math.pow.
  destruct (Req_dec_T (lapseRate (getLayer h)) 0) as [He|_];
    [contradiction|].
  reflexivity.
Qed.

(** The isothermal layers of the table are the three whose lapse rate
    is the literal 0. *)
Lemma isothermal_layers (l : AtmosphericLayer) :
  In l LAYERS ->
  (lapseRate l = 0 <-> l = Tropopause \/ l = Stratopause \/ l = Mesopause).
Proof.
  intros Hin. cbn in Hin.
  repeat (destruct Hin as [<-|Hin]); try contradiction;
    cbn [lapseRate Troposphere Tropopause StratosphereI StratosphereII
         Stratopause MesosphereI MesosphereII Mesopause];
    (split; [intros H0 | intros [H0|[H0|H0]]]);
    try lra; try discriminate; auto.
Qed.

(** C2: at every altitude (in particular between 0 and 86000) the
    pressure is given by exactly one of the two closed forms, chosen by
    whether the lapse rate of the resolved layer equals zero: the
    exponential form when it does, the power form when it does not, with
    [Pb], [Tb], [hb], [L] read from the resolved layer and [T] the
    temperature at that altitude. *)
Theorem calculatePressure_closed_forms (h : R) :
  let l := getLayer h in
  let T := calculateTemperature h in
  (lapseRate l = 0 /\ calculatePressure h = isothermal_pressure l h T)
  \/ (lapseRate l <> 0 /\ calculatePressure h = gradient_pressure l T).
Proof.
  intros l T. subst l T.
  destruct (Req_dec_T (lapseRate (getLayer h)) 0) as [H0|Hne].
  - left. split; [exact H0 | apply calculatePressure_isothermal, H0].
  - right. split; [exact Hne | apply calculatePressure_gradient, Hne].
Qed.

Lemma calculatePressure_pos (h : R) : 0 < calculatePressure h.
Proof.
  assert (Hb : 0 < basePressure (getLayer h)).
  { layer_cases h; rewrite Elayer; cbn; lra. }
  destruct (Req_dec_T (lapseRate (getLayer h)) 0) as [H0|Hne].
  - rewrite (calculatePressure_isothermal h H0).
    apply Rmult_lt_0_compat; [exact Hb | apply exp_pos].
  - rewrite (calculatePressure_gradient h Hne).
    apply Rmult_lt_0_compat; [exact Hb | apply exp_pos].
Qed.

(** Every division, power and square root of [calculateAtmosphere] is
    taken where the real function is the one the program computes:
    temperature, pressure and density are positive. *)
Lemma calculateAtmosphere_well_defined (h : R) :
  let r := calculateAtmosphere h in
  0 < temperature r
  /\ 0 < temperature r / baseTemperature (layer r)
  /\ 0 < pressure r
  /\ 0 < density r
  /\ 0 < ISA_CONSTANTS.gamma * ISA_CONSTANTS.R * temperature r.
Proof.
  cbn zeta. unfold calculateAtmosphere.
  cbn [temperature pressure density layer].
  set (c := Math.max 0 (Math.min 86000 h)).
  pose proof (calculateTemperature_pos c) as HT.
  pose proof (calculatePressure_pos c) as HP.
  pose proof (temperature_ratio_pos c) as Hr.
  assert (HRT : 0 < ISA_CONSTANTS.R * calculateTemperature c)
    by (unfold ISA_CONSTANTS.R; nra).
  repeat split; try assumption.
  - unfold calculateDensity. apply Rdiv_lt_0_compat; assumption.
  - unfold ISA_CONSTANTS.gamma, ISA_CONSTANTS.R in *. nra.
Qed.

(** ** Density *)

(** C4: for every altitude (in particular between 0 and 86000) the
    density of the result is its own pressure divided by the gas constant
    times its own temperature, these being the pressure and temperature
    computed in the same call at the clamped altitude; the divisor is not
    zero. *)
Theorem density_ideal_gas (h : R) :
  let r := calculateAtmosphere h in
  density r = pressure r / (ISA_CONSTANTS.R * temperature r)
  /\ pressure r = calculatePressure (altitude r)
  /\ temperature r = calculateTemperature (altitude r)
  /\ ISA_CONSTANTS.R * temperature r <> 0.
Proof.
  cbn zeta. repeat split.
  unfold calculateAtmosphere; cbn [temperature].
  pose proof (calculateTemperature_pos (Math.max 0 (Math.min 86000 h))).
  unfold ISA_CONSTANTS.R. nra.
Qed.

(** ** Layer resolution by greatest base altitude *)

Lemma getLayer_In (h : R) : In (getLayer h) LAYERS.
Proof. layer_cases h; rewrite Elayer; cbn; auto 10. Qed.

Lemma getLayer_base_le (h : R) : 0 <= h -> baseAltitude (getLayer h) <= h.
Proof. intros Hh. layer_cases h; rewrite Elayer; cbn; lra. Qed.

Lemma getLayer_base_max (h : R) (l : AtmosphericLayer) :
  In l LAYERS -> baseAltitude l <= h ->
  baseAltitude l <= baseAltitude (getLayer h).
Proof.
  intros Hin Hle. layer_cases h; rewrite Elayer; cbn in Hin;
    repeat (destruct Hin as [<-|Hin]); try contradiction;
    cbn in *; lra.
Qed.

Lemma getLayer_below_first (h : R) : h < 0 -> getLayer h = Troposphere.
Proof. intros Hh. layer_cases h; try lra. exact Elayer. Qed.

(** C8: for every altitude [h] at or above the first base, [getLayer h]
    is a layer of the table whose base altitude is at most [h] and is the
    greatest such base altitude in the table; for [h] below the first
    base, [getLayer h] is the first layer, the Troposphere. *)
Theorem getLayer_greatest_base (h : R) :
  (0 <= h ->
     In (getLayer h) LAYERS
     /\ baseAltitude (getLayer h) <= h
     /\ forall l, In l LAYERS -> baseAltitude l <= h ->
                  baseAltitude l <= baseAltitude (getLayer h))
  /\ (h < 0 -> getLayer h = LAYERS_at 0 /\ getLayer h = Troposphere).
Proof.
  split.
  - intros Hh. split; [apply getLayer_In|].
    split; [apply getLayer_base_le, Hh|].
    intros l. apply getLayer_base_max.
  - intros Hh. rewrite (getLayer_below_first h Hh). split; reflexivity.
Qed.

Lemma getLayer_greatest_base_witness :
  0 <= 15000
  /\ getLayer 15000 = Tropopause
  /\ baseAltitude (getLayer 15000) <= 15000
  /\ baseAltitude StratosphereI > 15000.
Proof.
  assert (H : 0 <= 15000) by lra.
  split; [exact H|].
  destruct (getLayer_greatest_base 15000) as [Hg _].
  destruct (Hg H) as (_ & Hle & _).
  split; [layer_cases 15000; try lra; exact Elayer|].
  split; [exact Hle | cbn; lra].
Defined.

(** The layer found is the only one of the table with that property:
    the base altitudes of the table are pairwise distinct. *)
Lemma getLayer_unique (h : R) (l : AtmosphericLayer) :
  0 <= h -> In l LAYERS -> baseAltitude l <= h ->
  (forall l', In l' LAYERS -> baseAltitude l' <= h ->
              baseAltitude l' <= baseAltitude l) ->
  l = getLayer h.
Proof.
  intros Hh Hin Hle Hmax.
  pose proof (getLayer_In h) as Hgin.
  pose proof (Hmax _ Hgin (getLayer_base_le h Hh)) as H1.
  pose proof (getLayer_base_max h l Hin Hle) as H2.
  assert (Heq : baseAltitude l = baseAltitude (getLayer h)) by lra.
  clear - Hin Hgin Heq. revert Hgin Heq.
  generalize (getLayer h) as g. intros g Hgin Heq.
  cbn in Hin, Hgin.
  repeat (destruct Hin as [<-|Hin]); try contradiction;
    repeat (destruct Hgin as [<-|Hgin]); try contradiction;
    cbn in Heq; first [reflexivity | exfalso; lra].
Qed.

(** ** Unit conversion *)

Lemma altitude_factor_pos (u : AltitudeUnit.t) :
  0 < UNITS.factor (UNITS.altitude u).
Proof. destruct u; cbn; lra. Qed.

(** ** The standalone functions above the modelled range *)

Lemma getLayer_Mesopause (h : R) : 86000 <= h -> getLayer h = Mesopause.
Proof. intros Hh. layer_cases h; try lra. exact Elayer. Qed.

Lemma calculateTemperature_Mesopause (h : R) :
  86000 <= h -> calculateTemperature h = 186.87.
Proof.
  intros Hh. rewrite calculateTemperature_in_layer, getLayer_Mesopause by exact Hh.
  cbn. ring.
Qed.

Lemma calculatePressure_Mesopause (h : R) :
  86000 <= h ->
  calculatePressure h =
    0.3734 * exp (- (ISA_CONSTANTS.g0 * (h - 86000)) / (ISA_CONSTANTS.R * 186.87)).
Proof.
  intros Hh. rewrite calculatePressure_isothermal.
  - rewrite calculateTemperature_Mesopause, getLayer_Mesopause by exact Hh.
    reflexivity.
  - rewrite getLayer_Mesopause by exact Hh. reflexivity.
Qed.

Lemma calculatePressure_86000 : calculatePressure 86000 = 0.3734.
Proof.
  rewrite calculatePressure_Mesopause by lra.
  replace (- (ISA_CONSTANTS.g0 * (86000 - 86000)) / (ISA_CONSTANTS.R * 186.87))
    with 0 by (unfold ISA_CONSTANTS.g0, ISA_CONSTANTS.R; field; lra).
  rewrite exp_0. ring.
Qed.

(** The reference values of the standard at sea level, at the tropopause
    and at the top of the range. *)
Lemma reference_values :
  calculateTemperature 0 = 288.15 /\ calculatePressure 0 = 101325
  /\ calculateTemperature 11000 = 216.65 /\ calculatePressure 11000 = 22632.1
  /\ calculateTemperature 86000 = 186.87 /\ calculatePressure 86000 = 0.3734.
Proof.
  assert (L0 : getLayer 0 = Troposphere)
    by (layer_cases 0; try lra; exact Elayer).
  assert (L11 : getLayer 11000 = Tropopause)
    by (layer_cases 11000; try lra; exact Elayer).
  assert (T0 : calculateTemperature 0 = 288.15)
    by (rewrite calculateTemperature_in_layer, L0; cbn; lra).
  assert (T11 : calculateTemperature 11000 = 216.65)
    by (rewrite calculateTemperature_in_layer, L11; cbn; lra).
  repeat split.
  - exact T0.
  - rewrite calculatePressure_gradient by (rewrite L0; cbn; lra).
    unfold gradient_pressure. rewrite T0, L0.
    cbn [basePressure baseTemperature lapseRate Troposphere].
    replace (288.15 / 288.15) with 1 by (field; lra).
    unfold Rpower. rewrite ln_1, Rmult_0_r, exp_0. ring.
  - exact T11.
  - rewrite calculatePressure_isothermal by (rewrite L11; reflexivity).
    unfold isothermal_pressure. rewrite T11, L11.
    cbn [basePressure baseAltitude Tropopause].
    replace (- (ISA_CONSTANTS.g0 * (11000 - 11000))
             / (ISA_CONSTANTS.R * 216.65)) with 0
      by (unfold ISA_CONSTANTS.g0, ISA_CONSTANTS.R; field; lra).
    rewrite exp_0. ring.
  - apply calculateTemperature_Mesopause. lra.
  - apply calculatePressure_86000.
Qed.



(** ** Continuity of the temperature at the layer boundaries *)

(** Below 86000 the temperature changes by at most 0.0065 K per metre,
    across layers as well as inside them. *)
Lemma calculateTemperature_lipschitz (h1 h2 : R) :
  h1 < 86000 -> h2 < 86000 ->
  Rabs (calculateTemperature h1 - calculateTemperature h2)
  <= 0.0065 * Rabs (h1 - h2).
Proof.
  intros H1 H2. rewrite !calculateTemperature_in_layer.
  layer_cases h1; rewrite Elayer; try lra;
    layer_cases h2; rewrite Elayer0; try lra;
    cbn [baseTemperature lapseRate baseAltitude Troposphere Tropopause
         StratosphereI StratosphereII Stratopause MesosphereI MesosphereII];
    unfold Rabs;
    repeat match goal with
    | |- context [Rcase_abs ?a] => destruct (Rcase_abs a)
    end; lra.
Qed.

Lemma calculateTemperature_continuous_below (b : R) :
  b < 86000 -> continuity_pt calculateTemperature b.
Proof.
  intros Hb eps Heps.
  exists (Rmin (eps / 0.0065) (86000 - b)). split.
  - apply Rmin_glb_lt; [apply Rdiv_lt_0_compat|]; lra.
  - intros h [_ Hd]. cbn [dist R_met] in *. unfold R_dist in *.
    assert (Hd1 : Rabs (h - b) < eps / 0.0065).
    { eapply Rlt_le_trans; [exact Hd | apply Rmin_l]. }
    assert (Hd2 : Rabs (h - b) < 86000 - b).
    { eapply Rlt_le_trans; [exact Hd | apply Rmin_r]. }
    assert (Hh : h < 86000).
    { revert Hd2. unfold Rabs. destruct (Rcase_abs (h - b)); lra. }
    eapply Rle_lt_trans; [apply calculateTemperature_lipschitz; assumption|].
    apply (Rmult_lt_compat_l 0.0065) in Hd1; [|lra].
    replace (0.0065 * (eps / 0.0065)) with eps in Hd1 by (field; lra).
    exact Hd1.
Qed.

(** Just below 86000 the temperature stays more than 2 K under the
    value at 86000. *)
Lemma calculateTemperature_gap_at_86000 (h : R) :
  85900 <= h < 86000 ->
  2 < calculateTemperature 86000 - calculateTemperature h.
Proof.
  intros Hh. rewrite (calculateTemperature_Mesopause 86000) by lra.
  rewrite calculateTemperature_in_layer.
  layer_cases h; rewrite Elayer; try lra. cbn. lra.
Qed.

Lemma calculateTemperature_discontinuous_86000 :
  ~ continuity_pt calculateTemperature 86000.
Proof.
  intros Hc. destruct (Hc 2 ltac:(lra)) as (alp & Halp & Hlim).
  cbn [dist R_met] in Hlim. unfold R_dist in Hlim.
  set (d := Rmin (alp / 2) 100).
  assert (Hd : 0 < d <= 100 /\ d < alp).
  { unfold d, Rmin. destruct (Rle_dec (alp / 2) 100); lra. }
  specialize (Hlim (86000 - d)).
  assert (Hpre : D_x no_cond 86000 (86000 - d)
                 /\ Rabs (86000 - d - 86000) < alp).
  { split; [split; [exact I | lra]|].
    replace (86000 - d - 86000) with (- d) by ring.
    rewrite Rabs_Ropp, Rabs_pos_eq; lra. }
  specialize (Hlim Hpre).
  pose proof (calculateTemperature_gap_at_86000 (86000 - d) ltac:(lra)) as Hgap.
  rewrite Rabs_minus_sym, Rabs_pos_eq in Hlim; lra.
Qed.

(** The statement of continuity at all seven internal boundaries fails
    at the last one: at 86000 the formula of Mesosphere II gives 184.65 K
    while the base temperature of the Mesopause is 186.87 K, and the
    temperature function is discontinuous there. *)
Lemma boundary_86000_mismatch :
  lower_formula_at_boundary 6 = 184.65
  /\ baseTemperature (LAYERS_at 7) = 186.87
  /\ baseAltitude (LAYERS_at 7) = 86000
  /\ ~ (forall i, (i < 7)%nat -> boundary_matches i)
  /\ ~ (forall i, (i < 7)%nat ->
          continuity_pt calculateTemperature (baseAltitude (LAYERS_at (S i)))).
Proof.
  assert (H6 : lower_formula_at_boundary 6 = 184.65).
  { unfold lower_formula_at_boundary. cbn. lra. }
  repeat split.
  - exact H6.
  - intros Hall. specialize (Hall 6%nat ltac:(lia)).
    unfold boundary_matches in Hall. rewrite H6 in Hall. cbn in Hall. lra.
  - intros Hall. specialize (Hall 6%nat ltac:(lia)).
    apply calculateTemperature_discontinuous_86000. exact Hall.
Qed.

(** C3, as the code has it: at each of the six internal boundaries
    11000, 20000, 32000, 47000, 51000 and 71000 the formula of the lower
    layer evaluated at the boundary equals the base temperature of the
    upper layer, and the temperature function is continuous there. *)
Theorem temperature_continuous_at_boundaries (i : nat) :
  (i < 6)%nat ->
  In (baseAltitude (LAYERS_at (S i)))
     [11000; 20000; 32000; 47000; 51000; 71000]
  /\ boundary_matches i
  /\ continuity_pt calculateTemperature (baseAltitude (LAYERS_at (S i))).
Proof.
  intros Hi.
  assert (Hcases : (i = 0 \/ i = 1 \/ i = 2 \/ i = 3 \/ i = 4 \/ i = 5)%nat)
    by lia.
  split; [|split].
  - decompose [or] Hcases; subst i; cbn; auto 10.
  - unfold boundary_matches, lower_formula_at_boundary.
    decompose [or] Hcases; subst i; cbn; lra.
  - apply calculateTemperature_continuous_below.
    decompose [or] Hcases; subst i; cbn; lra.
Qed.

Lemma temperature_continuous_at_boundaries_witness :
  (0 < 6)%nat
  /\ boundary_matches 0
  /\ continuity_pt calculateTemperature 11000.
Proof.
  assert (H : (0 < 6)%nat) by lia.
  split; [exact H|].
  destruct (temperature_continuous_at_boundaries 0 H) as (_ & Hm & Hc).
  split; [exact Hm | exact Hc].
Defined.

(** ** The profile generator *)

Section ProfileLoop.

Variables endAltM stepM : R.

(** If the loop condition holds at the first [k] sample altitudes and
    fails at the next, the loop pushes exactly those [k] samples, in
    order, and returns. *)
Lemma generateProfile_loop_runs (k : nat) :
  forall (fuel : nat) (alt : R) (results : list AtmosphericResult),
    (k < fuel)%nat ->
    (forall j, (j < k)%nat -> sample_altitude alt stepM j <= endAltM) ->
    endAltM < sample_altitude alt stepM k ->
    generateProfile_loop fuel alt endAltM stepM results =
      Some (results
            ++ map (fun j => calculateAtmosphere (sample_altitude alt stepM j))
                 (seq 0 k)).
Proof.
  unfold sample_altitude.
  induction k as [|k IH]; intros fuel alt results Hfuel Hin Hout.
  - destruct fuel as [|fuel]; [lia|]. cbn [generateProfile_loop seq map].
    cbn [INR] in Hout.
    destruct (Rle_dec alt endAltM); [lra|]. now rewrite app_nil_r.
  - destruct fuel as [|fuel]; [lia|]. cbn [generateProfile_loop].
    pose proof (Hin 0%nat ltac:(lia)) as H0. cbn [INR] in H0.
    destruct (Rle_dec alt endAltM); [|lra].
    rewrite IH.
    + rewrite <- app_assoc. cbn [app seq map]. do 3 f_equal.
      * f_equal. cbn [INR]. ring.
      * rewrite <- seq_shift, map_map. apply map_ext. intros j.
        f_equal. rewrite S_INR. ring.
    + lia.
    + intros j Hj. specialize (Hin (S j) ltac:(lia)).
      rewrite S_INR in Hin. lra.
    + rewrite S_INR in Hout. lra.
Qed.


(** More fuel does not change a result. *)
Lemma generateProfile_loop_fuel_mono :
  forall (fuel fuel' : nat) (alt : R) (results out : list AtmosphericResult),
    (fuel <= fuel')%nat ->
    generateProfile_loop fuel alt endAltM stepM results = Some out ->
    generateProfile_loop fuel' alt endAltM stepM results = Some out.
Proof.
  induction fuel as [|fuel IH]; intros fuel' alt results out Hle Hrun.
  - discriminate.
  - destruct fuel' as [|fuel']; [lia|]. cbn [generateProfile_loop] in *.
    destruct (Rle_dec alt endAltM); [|exact Hrun].
    apply IH; [lia | exact Hrun].
Qed.

End ProfileLoop.


Lemma generateProfile_empty (fuel : nat) (startAltM endAltM stepM : R) :
  (0 < fuel)%nat -> endAltM < startAltM ->
  generateProfile fuel startAltM endAltM stepM = Some [].
Proof.
  intros Hfuel Hlt. destruct fuel as [|fuel]; [lia|].
  unfold generateProfile; cbn [generateProfile_loop].
  destruct (Rle_dec startAltM endAltM); [lra | reflexivity].
Qed.

(** C5: [generateProfile(0, 10000, 1000)] returns exactly 11 results,
    the results of [calculateAtmosphere] at 0, 1000, ..., 10000 in this
    order, whose altitude fields are these values, strictly ascending;
    [generateProfile(10000, 0, 1000)] returns the empty array. *)
Theorem generateProfile_0_10000_1000 :
  let altitudes :=
    [0; 1000; 2000; 3000; 4000; 5000; 6000; 7000; 8000; 9000; 10000] in
  let expected := map calculateAtmosphere altitudes in
  (forall fuel, (12 <= fuel)%nat ->
     generateProfile fuel 0 10000 1000 = Some expected)
  /\ List.length expected = 11%nat
  /\ map altitude expected = altitudes
  /\ StronglySorted Rlt (map altitude expected)
  /\ (forall fuel, (0 < fuel)%nat ->
        generateProfile fuel 10000 0 1000 = Some []
        /\ generateProfile_call fuel 10000 0 1000 = Some (Normal [])).
Proof.
  intros altitudes expected.
  assert (Halt : map altitude expected = altitudes).
  { subst expected altitudes. cbn [map].
    rewrite !calculateAtmosphere_altitude.
    repeat (rewrite clamp_fixes by lra). reflexivity. }
  split; [|split; [|split; [|split]]].
  - intros fuel Hfuel. unfold generateProfile.
    rewrite (generateProfile_loop_runs 10000 1000 11).
    + subst expected altitudes. cbn [seq map app]. unfold sample_altitude.
      apply f_equal.
      repeat match goal with
      | |- _ :: _ = _ :: _ => apply f_equal2; [f_equal; cbn [INR]; lra|]
      end.
      reflexivity.
    + lia.
    + intros j Hj. unfold sample_altitude.
      assert (Hle : INR j <= INR 10) by (apply le_INR; lia).
      cbn [INR] in Hle. lra.
    + unfold sample_altitude. cbn [INR]. lra.
  - reflexivity.
  - exact Halt.
  - rewrite Halt. subst altitudes.
    repeat (apply SSorted_cons; [|repeat (apply Forall_cons; [lra|]); apply Forall_nil]).
    apply SSorted_nil.
  - intros fuel Hfuel.
    assert (He : generateProfile fuel 10000 0 1000 = Some [])
      by (apply generateProfile_empty; [exact Hfuel | lra]).
    split; [exact He|]. unfold generateProfile_call. rewrite He. reflexivity.
Qed.

Lemma generateProfile_0_10000_1000_witness :
  (12 <= 12)%nat
  /\ generateProfile 12 0 10000 1000 =
       Some (map calculateAtmosphere
               [0; 1000; 2000; 3000; 4000; 5000; 6000; 7000; 8000; 9000; 10000])
  /\ generateProfile 1 10000 0 1000 = Some [].
Proof.
  assert (H : (12 <= 12)%nat) by lia.
  destruct generateProfile_0_10000_1000 as (Hrun & _ & _ & _ & Hempty).
  split; [exact H|]. split.
  - exact (Hrun 12%nat H).
  - exact (proj1 (Hempty 1%nat ltac:(lia))).
Defined.

(** *** Step sizes that are not positive *)




(** * Further properties of the model *)

(** ** The table at its own base altitudes *)

Lemma getLayer_at_base (l : AtmosphericLayer) :
  In l LAYERS -> getLayer (baseAltitude l) = l.
Proof.
  intros Hin. cbn in Hin.
  repeat (destruct Hin as [<-|Hin]); try contradiction;
    match goal with
    | |- getLayer ?b = _ => layer_cases b; cbn in *; try lra; exact Elayer
    end.
Qed.

Lemma calculateTemperature_at_base (h : R) :
  h = baseAltitude (getLayer h) ->
  calculateTemperature h = baseTemperature (getLayer h).
Proof.
  intros Hb. rewrite calculateTemperature_in_layer.
  rewrite <- Hb. ring.
Qed.

Lemma Rpower_base_1 (y : R) : Rpower 1 y = 1.
Proof. unfold Rpower. rewrite ln_1, Rmult_0_r. apply exp_0. Qed.

Lemma baseTemperature_pos (l : AtmosphericLayer) :
  In l LAYERS -> 0 < baseTemperature l.
Proof.
  intros Hin. cbn in Hin.
  repeat (destruct Hin as [<-|Hin]); try contradiction; cbn; lra.
Qed.

Lemma basePressure_bounds (l : AtmosphericLayer) :
  In l LAYERS -> 0 < basePressure l <= 101325.
Proof.
  intros Hin. cbn in Hin.
  repeat (destruct Hin as [<-|Hin]); try contradiction; cbn; lra.
Qed.

Lemma calculatePressure_at_base (h : R) :
  h = baseAltitude (getLayer h) ->
  calculatePressure h = basePressure (getLayer h).
Proof.
  intros Hb.
  pose proof (baseTemperature_pos _ (getLayer_In h)) as HTb.
  destruct (Req_dec_T (lapseRate (getLayer h)) 0) as [H0|Hne].
  - rewrite (calculatePressure_isothermal h H0). unfold isothermal_pressure.
    rewrite <- Hb, Rminus_diag, Rmult_0_r, Ropp_0.
    unfold Rdiv. rewrite Rmult_0_l, exp_0. ring.
  - rewrite (calculatePressure_gradient h Hne). unfold gradient_pressure.
    rewrite (calculateTemperature_at_base h Hb).
    unfold Rdiv at 1. rewrite Rinv_r by lra.
    rewrite Rpower_base_1. ring.
Qed.

(** X1: every layer of the table is the one resolved at its own base
    altitude, and there the temperature and the pressure are the base
    temperature and the base pressure of the table. *)
Theorem table_reproduced_at_bases (l : AtmosphericLayer) :
  In l LAYERS ->
  getLayer (baseAltitude l) = l
  /\ calculateTemperature (baseAltitude l) = baseTemperature l
  /\ calculatePressure (baseAltitude l) = basePressure l
  /\ layer (calculateAtmosphere (baseAltitude l)) = l
  /\ temperature (calculateAtmosphere (baseAltitude l)) = baseTemperature l
  /\ pressure (calculateAtmosphere (baseAltitude l)) = basePressure l.
Proof.
  intros Hin.
  pose proof (getLayer_at_base l Hin) as HL.
  assert (Hb : baseAltitude l = baseAltitude (getLayer (baseAltitude l)))
    by (rewrite HL; reflexivity).
  pose proof (calculateTemperature_at_base _ Hb) as HT.
  pose proof (calculatePressure_at_base _ Hb) as HP.
  rewrite HL in HT, HP.
  assert (Hc : Math.max 0 (Math.min 86000 (baseAltitude l)) = baseAltitude l).
  { rewrite max_min_clamp. apply clamp_fixes.
    clear - Hin. cbn in Hin.
    repeat (destruct Hin as [<-|Hin]); try contradiction; cbn; lra. }
  unfold calculateAtmosphere. cbn [layer temperature pressure].
  rewrite Hc. repeat split; assumption.
Qed.

Lemma table_reproduced_at_bases_witness :
  In StratosphereII LAYERS
  /\ calculateTemperature 32000 = 228.65
  /\ calculatePressure 32000 = 868.019.
Proof.
  assert (H : In StratosphereII LAYERS) by (cbn; auto 10).
  split; [exact H|].
  destruct (table_reproduced_at_bases StratosphereII H)
    as (_ & HT & HP & _).
  split; [exact HT | exact HP].
Defined.

(** X2: layer resolution is monotone: a higher altitude never resolves a
    layer with a lower base. *)
Theorem getLayer_monotone (h1 h2 : R) :
  h1 <= h2 ->
  baseAltitude (getLayer h1) <= baseAltitude (getLayer h2).
Proof.
  intros Hle.
  layer_cases h1; rewrite Elayer;
    layer_cases h2; rewrite Elayer0; cbn; lra.
Qed.

Lemma getLayer_monotone_witness :
  5000 <= 40000
  /\ baseAltitude (getLayer 5000) <= baseAltitude (getLayer 40000).
Proof.
  assert (H : 5000 <= 40000) by lra.
  split; [exact H | exact (getLayer_monotone 5000 40000 H)].
Defined.

(** ** Ranges of temperature and pressure *)

Lemma calculateTemperature_range (h : R) :
  0 <= h -> 184.65 < calculateTemperature h <= 288.15.
Proof.
  intros Hh. rewrite calculateTemperature_in_layer.
  layer_cases h; rewrite Elayer; cbn; lra.
Qed.

Lemma result_temperature_bounds_aux (h : R) :
  184.65 < temperature (calculateAtmosphere h) <= 288.15.
Proof.
  unfold calculateAtmosphere. cbn [temperature]. rewrite max_min_clamp.
  pose proof (clamp_bounds h) as [Hlo _].
  apply calculateTemperature_range, Hlo.
Qed.

(** X3: whatever the altitude, the temperature of a result lies above
    184.65 K and at most at the sea-level 288.15 K, that is between
    -88.5 and 15 degrees Celsius. *)
Theorem result_temperature_range (h : R) :
  let r := calculateAtmosphere h in
  184.65 < temperature r <= 288.15
  /\ -88.5 < temperatureCelsius r <= 15.
Proof.
  cbn zeta. unfold calculateAtmosphere.
  cbn [temperature temperatureCelsius].
  rewrite max_min_clamp.
  pose proof (clamp_bounds h) as [Hlo _].
  pose proof (calculateTemperature_range _ Hlo). lra.
Qed.

Lemma lapse_exponent_sign (L : R) :
  L <> 0 ->
  (L < 0 -> 0 < - ISA_CONSTANTS.g0 / (L * ISA_CONSTANTS.R))
  /\ (0 < L -> - ISA_CONSTANTS.g0 / (L * ISA_CONSTANTS.R) < 0).
Proof.
  intros HL.
  assert (Hg : 0 < ISA_CONSTANTS.g0) by (unfold ISA_CONSTANTS.g0; lra).
  assert (Hr : 0 < ISA_CONSTANTS.R) by (unfold ISA_CONSTANTS.R; lra).
  generalize dependent ISA_CONSTANTS.g0. intros g Hg.
  generalize dependent ISA_CONSTANTS.R. intros r Hr.
  split; intros Hs.
  - replace (- g / (L * r)) with (g / (- L * r)) by (field; lra).
    apply Rdiv_lt_0_compat; nra.
  - replace (- g / (L * r)) with (- (g / (L * r))) by (field; lra).
    assert (0 < g / (L * r)) by (apply Rdiv_lt_0_compat; nra).
    lra.
Qed.

(** Inside one layer the pressure strictly decreases with altitude. *)
Lemma calculatePressure_decreasing_in_layer (h1 h2 : R) :
  h1 < h2 -> getLayer h1 = getLayer h2 ->
  calculatePressure h2 < calculatePressure h1.
Proof.
  intros Hlt HL.
  pose proof (basePressure_bounds _ (getLayer_In h1)) as [HPb _].
  pose proof (baseTemperature_pos _ (getLayer_In h1)) as HTb.
  pose proof (calculateTemperature_pos h1) as HT1.
  pose proof (calculateTemperature_pos h2) as HT2.
  assert (HdT : calculateTemperature h2 - calculateTemperature h1
                = lapseRate (getLayer h1) * (h2 - h1)).
  { rewrite !calculateTemperature_in_layer, <- HL. ring. }
  destruct (Req_dec_T (lapseRate (getLayer h1)) 0) as [H0|Hne].
  - rewrite (calculatePressure_isothermal h1 H0).
    rewrite (calculatePressure_isothermal h2) by (rewrite <- HL; exact H0).
    unfold isothermal_pressure. rewrite <- HL.
    assert (HTeq : calculateTemperature h2 = calculateTemperature h1)
      by (rewrite H0 in HdT; lra).
    rewrite HTeq.
    apply Rmult_lt_compat_l; [exact HPb|]. apply exp_increasing.
    apply Rmult_lt_compat_r.
    + apply Rinv_0_lt_compat. unfold ISA_CONSTANTS.R. nra.
    + unfold ISA_CONSTANTS.g0. nra.
  - rewrite (calculatePressure_gradient h1 Hne).
    rewrite (calculatePressure_gradient h2) by (rewrite <- HL; exact Hne).
    unfold gradient_pressure. rewrite <- HL.
    apply Rmult_lt_compat_l; [exact HPb|].
    set (Tb := baseTemperature (getLayer h1)) in *.
    set (L := lapseRate (getLayer h1)) in *.
    set (e := - ISA_CONSTANTS.g0 / (L * ISA_CONSTANTS.R)).
    assert (Hr1 : 0 < calculateTemperature h1 / Tb)
      by (apply Rdiv_lt_0_compat; assumption).
    assert (Hr2 : 0 < calculateTemperature h2 / Tb)
      by (apply Rdiv_lt_0_compat; assumption).
    destruct (lapse_exponent_sign L Hne) as [Hneg Hpos]. fold e in Hneg, Hpos.
    unfold Rpower. apply exp_increasing.
    destruct (Rtotal_order L 0) as [HL0|[HL0|HL0]]; [|contradiction|].
    + assert (Hlt' : calculateTemperature h2 / Tb < calculateTemperature h1 / Tb).
      { apply Rmult_lt_compat_r; [apply Rinv_0_lt_compat; exact HTb | nra]. }
      pose proof (ln_increasing _ _ Hr2 Hlt') as Hln.
      specialize (Hneg HL0). nra.
    + assert (Hlt' : calculateTemperature h1 / Tb < calculateTemperature h2 / Tb).
      { apply Rmult_lt_compat_r; [apply Rinv_0_lt_compat; exact HTb | nra]. }
      pose proof (ln_increasing _ _ Hr1 Hlt') as Hln.
      specialize (Hpos HL0). nra.
Qed.

(** X4: between two altitudes of one layer, from 0 to 86000 m and at
    least one metre apart, the pressure is strictly lower at the higher
    altitude. *)
Theorem pressure_decreases_within_layer (h1 h2 : R) :
  0 <= h1 -> h1 + 1 <= h2 -> h2 <= 86000 ->
  getLayer h1 = getLayer h2 ->
  calculatePressure h2 < calculatePressure h1.
Proof.
  intros _ Hgap _ HL.
  apply calculatePressure_decreasing_in_layer; [lra | exact HL].
Qed.

Lemma pressure_decreases_within_layer_witness :
  (0 <= 12000 /\ 12000 + 1 <= 15000 /\ 15000 <= 86000)
  /\ getLayer 12000 = getLayer 15000
  /\ calculatePressure 15000 < calculatePressure 12000.
Proof.
  assert (H0 : 0 <= 12000) by lra.
  assert (H1 : 12000 + 1 <= 15000) by lra.
  assert (H3 : 15000 <= 86000) by lra.
  assert (H2 : getLayer 12000 = getLayer 15000).
  { transitivity Tropopause.
    - layer_cases 12000; try lra; exact Elayer.
    - symmetry. layer_cases 15000; try lra; exact Elayer. }
  split; [auto|]. split; [exact H2|].
  exact (pressure_decreases_within_layer 12000 15000 H0 H1 H3 H2).
Defined.

Lemma calculatePressure_le_base (h : R) :
  0 <= h -> calculatePressure h <= basePressure (getLayer h).
Proof.
  intros Hh.
  pose proof (getLayer_base_le h Hh) as Hle.
  destruct (Rle_lt_or_eq_dec _ _ Hle) as [Hlt|Heq].
  - left.
    pose proof (getLayer_at_base _ (getLayer_In h)) as Hb.
    assert (HPb : calculatePressure (baseAltitude (getLayer h))
                  = basePressure (getLayer h)).
    { rewrite calculatePressure_at_base; rewrite Hb; reflexivity. }
    rewrite <- HPb.
    apply calculatePressure_decreasing_in_layer; [exact Hlt | exact Hb].
  - right. apply calculatePressure_at_base. symmetry. exact Heq.
Qed.

(** X5: whatever the altitude, the pressure of a result is positive, at
    most the base pressure of its layer and so at most the sea-level
    101325 Pa. *)
Theorem result_pressure_range (h : R) :
  let r := calculateAtmosphere h in
  0 < pressure r
  /\ pressure r <= basePressure (layer r)
  /\ pressure r <= 101325.
Proof.
  cbn zeta. unfold calculateAtmosphere. cbn [pressure layer].
  rewrite max_min_clamp.
  pose proof (clamp_bounds h) as [Hlo _].
  pose proof (calculatePressure_le_base _ Hlo) as Hle.
  pose proof (basePressure_bounds _ (getLayer_In (clamp 0 86000 h))) as [_ Hb].
  split; [apply calculatePressure_pos|]. split; lra.
Qed.

(** ** The pressure at the top boundary *)

Lemma Rpower_lt_pow (x y : R) (n : nat) :
  0 < x < 1 -> INR n < y -> Rpower x y < x ^ n.
Proof.
  intros Hx Hy. rewrite <- Rpower_pow by lra.
  unfold Rpower. apply exp_increasing.
  assert (Hln : ln x < 0).
  { rewrite <- ln_1. apply ln_increasing; lra. }
  nra.
Qed.

(** X6: in the kilometre below 86000 the pressure stays under 0.371 Pa,
    while at 86000 it is the 0.3734 Pa of the table: the pressure is not
    continuous at the top boundary, it rises there. *)
Theorem pressure_rises_at_86000 (h : R) :
  85000 <= h < 86000 ->
  calculatePressure h < 0.371
  /\ calculatePressure 86000 = 0.3734
  /\ calculatePressure h < calculatePressure 86000.
Proof.
  intros Hh.
  assert (HL : getLayer h = MesosphereII)
    by (layer_cases h; try lra; exact Elayer).
  assert (HP : calculatePressure h < 0.371).
  { rewrite calculatePressure_gradient by (rewrite HL; cbn; lra).
    unfold gradient_pressure.
    rewrite calculateTemperature_in_layer, HL.
    cbn [basePressure baseTemperature lapseRate baseAltitude MesosphereII].
    set (x := (214.65 + -0.002 * (h - 71000)) / 214.65).
    set (e := - ISA_CONSTANTS.g0 / (-0.002 * ISA_CONSTANTS.R)).
    assert (Hx : 0 < x <= 0.87).
    { unfold x. split.
      - apply Rdiv_lt_0_compat; lra.
      - apply (Rmult_le_reg_r 214.65); [lra|].
        unfold Rdiv. rewrite Rmult_assoc, Rinv_l by lra. lra. }
    assert (He : INR 17 < e).
    { assert (Hed : e * (-0.002 * ISA_CONSTANTS.R) = - ISA_CONSTANTS.g0).
      { unfold e, Rdiv. rewrite Rmult_assoc, Rinv_l; [ring|].
        unfold ISA_CONSTANTS.R. lra. }
      unfold ISA_CONSTANTS.g0, ISA_CONSTANTS.R in Hed.
      replace (INR 17) with 17 by (cbn [INR]; lra). lra. }
    pose proof (Rpower_lt_pow x e 17 ltac:(lra) He) as Hpow.
    assert (Hinc : x ^ 17 <= 0.87 ^ 17) by (apply pow_incr; lra).
    assert (Hnum : 3.95642 * 0.87 ^ 17 < 0.371) by (cbn [pow]; lra).
    nra. }
  rewrite calculatePressure_86000. repeat split; [exact HP | lra].
Qed.

Lemma pressure_rises_at_86000_witness :
  85000 <= 85500 < 86000
  /\ calculatePressure 85500 < calculatePressure 86000.
Proof.
  assert (H : 85000 <= 85500 < 86000) by lra.
  split; [exact H|].
  destruct (pressure_rises_at_86000 85500 H) as (_ & _ & Hlt). exact Hlt.
Defined.

(** ** Speed of sound *)

Lemma gamma_R_pos : 0 < ISA_CONSTANTS.gamma * ISA_CONSTANTS.R.
Proof. unfold ISA_CONSTANTS.gamma, ISA_CONSTANTS.R. lra. Qed.

(** X7: for temperatures that are not negative the speed of sound is
    not negative and never decreases when the temperature grows; between
    1 K and 1000 K it grows strictly over any step of at least 0.001 K. *)
Theorem calculateSpeedOfSound_monotone (T1 T2 : R) :
  0 <= T1 -> T1 <= T2 ->
  0 <= calculateSpeedOfSound T1
  /\ calculateSpeedOfSound T1 <= calculateSpeedOfSound T2
  /\ (1 <= T1 -> T1 + 0.001 <= T2 -> T2 <= 1000 ->
      calculateSpeedOfSound T1 < calculateSpeedOfSound T2).
Proof.
  intros H1 Hle. pose proof gamma_R_pos as Hg.
  unfold calculateSpeedOfSound, Math.sqrt.
  assert (Hx1 : 0 <= ISA_CONSTANTS.gamma * ISA_CONSTANTS.R * T1) by nra.
  split; [apply sqrt_pos|]. split.
  - apply sqrt_le_1_alt. nra.
  - intros _ Hgap _. apply sqrt_lt_1_alt. split; [exact Hx1 | nra].
Qed.

Lemma calculateSpeedOfSound_monotone_witness :
  (0 <= 216.65 /\ 216.65 <= 288.15)
  /\ calculateSpeedOfSound 216.65 < calculateSpeedOfSound 288.15.
Proof.
  assert (H1 : 0 <= 216.65) by lra.
  assert (H2 : 216.65 <= 288.15) by lra.
  split; [auto|].
  destruct (calculateSpeedOfSound_monotone 216.65 288.15 H1 H2)
    as (_ & _ & Hlt).
  apply Hlt; lra.
Defined.

(** X8: whatever the altitude, the speed of sound of a result lies
    between 272 and 340.3 m/s. *)
Theorem result_speedOfSound_range (h : R) :
  272 < speedOfSound (calculateAtmosphere h) < 340.3.
Proof.
  pose proof (result_temperature_bounds_aux h) as HT.
  unfold calculateAtmosphere in *. cbn [speedOfSound temperature] in *.
  set (T := calculateTemperature (Math.max 0 (Math.min 86000 h))) in *.
  unfold calculateSpeedOfSound, Math.sqrt.
  set (x := ISA_CONSTANTS.gamma * ISA_CONSTANTS.R * T).
  assert (Hx : 272 * 272 < x < 340.3 * 340.3).
  { unfold x, ISA_CONSTANTS.gamma, ISA_CONSTANTS.R. lra. }
  pose proof (sqrt_pos x) as Hpos.
  pose proof (sqrt_sqrt x ltac:(lra)) as Hsq.
  split; nra.
Qed.

(** ** Viscosity *)

Lemma sutherland_fraction_increasing (a b S : R) :
  0 < a -> a < b -> 0 < S -> a / (a + S) < b / (b + S).
Proof.
  intros Ha Hab HS.
  apply (Rmult_lt_reg_r ((a + S) * (b + S))); [nra|].
  replace (a / (a + S) * ((a + S) * (b + S))) with (a * (b + S))
    by (field; lra).
  replace (b / (b + S) * ((a + S) * (b + S))) with (b * (a + S))
    by (field; lra).
  nra.
Qed.

(** Sutherland's formula with the power split into a square root and a
    linear factor, each of which grows with the temperature. *)
Lemma calculateDynamicViscosity_split (T : R) :
  0 < T ->
  calculateDynamicViscosity T =
    1.7894e-5
    * (Rpower (T / 288.15) 0.5
       * ((288.15 + 110.4) / 288.15 * (T / (T + 110.4)))).
Proof.
  intros HT. unfold calculateDynamicViscosity, Math.pow. cbn zeta.
  assert (Hx : 0 < T / 288.15) by (apply Rdiv_lt_0_compat; lra).
  replace 1.5 with (0.5 + 1) by lra.
  rewrite Rpower_plus, (Rpower_1 _ Hx). field. lra.
Qed.

Lemma calculateDynamicViscosity_increasing (T1 T2 : R) :
  0 < T1 -> T1 < T2 ->
  0 < calculateDynamicViscosity T1 < calculateDynamicViscosity T2.
Proof.
  intros H1 Hlt.
  rewrite !calculateDynamicViscosity_split by lra.
  assert (Hx1 : 0 < T1 / 288.15) by (apply Rdiv_lt_0_compat; lra).
  assert (Hx12 : T1 / 288.15 < T2 / 288.15).
  { apply Rmult_lt_compat_r; [apply Rinv_0_lt_compat|]; lra. }
  assert (HA1 : 0 < Rpower (T1 / 288.15) 0.5) by apply exp_pos.
  assert (HA : Rpower (T1 / 288.15) 0.5 < Rpower (T2 / 288.15) 0.5)
    by (apply Rlt_Rpower_l; lra).
  assert (Hc : 0 < (288.15 + 110.4) / 288.15)
    by (apply Rdiv_lt_0_compat; lra).
  assert (HF1 : 0 < T1 / (T1 + 110.4)) by (apply Rdiv_lt_0_compat; lra).
  pose proof (sutherland_fraction_increasing T1 T2 110.4 H1 Hlt ltac:(lra))
    as HF.
  set (c := (288.15 + 110.4) / 288.15) in *.
  assert (HB1 : 0 < c * (T1 / (T1 + 110.4))) by (apply Rmult_lt_0_compat; lra).
  assert (HB : c * (T1 / (T1 + 110.4)) < c * (T2 / (T2 + 110.4)))
    by (apply Rmult_lt_compat_l; lra).
  split.
  - apply Rmult_lt_0_compat; [lra|]. apply Rmult_lt_0_compat; assumption.
  - apply Rmult_lt_compat_l; [lra|].
    apply Rmult_le_0_lt_compat; lra.
Qed.

Lemma calculateDynamicViscosity_reference :
  calculateDynamicViscosity 288.15 = 1.7894e-5.
Proof.
  rewrite calculateDynamicViscosity_split by lra.
  replace (288.15 / 288.15) with 1 by (field; lra).
  rewrite Rpower_base_1. field. lra.
Qed.

(** X9: between 100 K and 1000 K Sutherland's formula gives a positive
    viscosity that grows strictly over any step of temperature of at
    least 0.01 K, and it gives the reference viscosity 1.7894e-5 at the
    reference temperature 288.15 K. *)
Theorem calculateDynamicViscosity_monotone (T1 T2 : R) :
  100 <= T1 -> T1 + 0.01 <= T2 -> T2 <= 1000 ->
  0 < calculateDynamicViscosity T1
  /\ calculateDynamicViscosity T1 < calculateDynamicViscosity T2
  /\ calculateDynamicViscosity 288.15 = 1.7894e-5.
Proof.
  intros H1 Hgap _.
  destruct (calculateDynamicViscosity_increasing T1 T2) as [Hp Hi];
    [lra | lra |].
  split; [exact Hp|]. split; [exact Hi|].
  apply calculateDynamicViscosity_reference.
Qed.

Lemma calculateDynamicViscosity_monotone_witness :
  (100 <= 216.65 /\ 216.65 + 0.01 <= 288.15 /\ 288.15 <= 1000)
  /\ calculateDynamicViscosity 216.65 < 1.7894e-5.
Proof.
  assert (H1 : 100 <= 216.65) by lra.
  assert (H2 : 216.65 + 0.01 <= 288.15) by lra.
  assert (H3 : 288.15 <= 1000) by lra.
  split; [auto|].
  destruct (calculateDynamicViscosity_monotone 216.65 288.15 H1 H2 H3)
    as (_ & Hlt & Href).
  rewrite Href in Hlt. exact Hlt.
Defined.

(** X10: whatever the altitude, the dynamic viscosity of a result is
    positive and at most the reference 1.7894e-5 Pa s, and its density
    and kinematic viscosity are positive. *)
Theorem result_viscosity (h : R) :
  let r := calculateAtmosphere h in
  0 < dynamicViscosity r <= 1.7894e-5
  /\ 0 < density r
  /\ 0 < kinematicViscosity r.
Proof.
  cbn zeta.
  pose proof (result_temperature_bounds_aux h) as HT.
  pose proof (calculateAtmosphere_well_defined h) as (_ & _ & _ & Hrho & _).
  unfold calculateAtmosphere in *.
  cbn [temperature density dynamicViscosity kinematicViscosity] in *.
  set (T := calculateTemperature (Math.max 0 (Math.min 86000 h))) in *.
  set (rho := calculateDensity _ T) in *.
  assert (Hmu : 0 < calculateDynamicViscosity T <= 1.7894e-5).
  { destruct (Rle_lt_or_eq_dec T 288.15 ltac:(lra)) as [Hlt|Heq].
    - destruct (calculateDynamicViscosity_increasing T 288.15 ltac:(lra) Hlt)
        as [Hp Hi].
      rewrite calculateDynamicViscosity_reference in Hi. lra.
    - rewrite Heq, calculateDynamicViscosity_reference. lra. }
  split; [exact Hmu|]. split; [exact Hrho|].
  apply Rdiv_lt_0_compat; lra.
Qed.

(** ** Unit conversion, continued *)

Lemma pressure_factor_pos (u : PressureUnit.t) :
  0 < UNITS.factor (UNITS.pressure u).
Proof. destruct u; cbn; lra. Qed.

(** X11: an altitude conversion never reverses the order of two values,
    converting metres to metres changes nothing, and zero converts to
    zero between any two units. *)
Theorem convertAltitude_monotone (x y : R) (u v : AltitudeUnit.t) :
  (x <= y -> convertAltitude x u v <= convertAltitude y u v)
  /\ convertAltitude x AltitudeUnit.m AltitudeUnit.m = x
  /\ convertAltitude 0 u v = 0.
Proof.
  pose proof (altitude_factor_pos u) as Hu.
  pose proof (altitude_factor_pos v) as Hv.
  unfold convertAltitude.
  split; [|split].
  - set (fu := UNITS.factor (UNITS.altitude u)) in *.
    set (fv := UNITS.factor (UNITS.altitude v)) in *.
    intros Hxy.
    assert (Hc : 0 < / fv) by (apply Rinv_0_lt_compat; exact Hv).
    unfold Rdiv. apply Rmult_le_compat_r; [lra | nra].
  - cbn. field.
  - unfold Rdiv. ring.
Qed.

(** X12: a pressure conversion never reverses the order of two values,
    converting pascals to pascals changes nothing, and hectopascal and
    millibar can replace each other as the unit converted from and as
    the unit converted to. *)
Theorem convertPressure_monotone (x y : R) (u v : PressureUnit.t) :
  (x <= y -> convertPressure x u v <= convertPressure y u v)
  /\ convertPressure x PressureUnit.Pa PressureUnit.Pa = x
  /\ convertPressure x PressureUnit.hPa v
     = convertPressure x PressureUnit.mbar v
  /\ convertPressure x u PressureUnit.hPa
     = convertPressure x u PressureUnit.mbar.
Proof.
  pose proof (pressure_factor_pos u) as Hu.
  pose proof (pressure_factor_pos v) as Hv.
  unfold convertPressure.
  split; [|split; [|split]].
  - set (fu := UNITS.factor (UNITS.pressure u)) in *.
    set (fv := UNITS.factor (UNITS.pressure v)) in *.
    intros Hxy.
    assert (Hc : 0 < / fv) by (apply Rinv_0_lt_compat; exact Hv).
    unfold Rdiv. apply Rmult_le_compat_r; [lra | nra].
  - cbn. field.
  - reflexivity.
  - reflexivity.
Qed.

(** ** What the profile generator returns *)

Section ProfileReturn.

Variables endAltM stepM : R.

(** Whenever the loop returns, it has pushed the samples at the first
    [k] sample altitudes, all of them at most [endAltM], and the next
    sample altitude is above [endAltM]. *)
Lemma generateProfile_loop_inv :
  forall (fuel : nat) (alt : R) (results out : list AtmosphericResult),
    generateProfile_loop fuel alt endAltM stepM results = Some out ->
    exists k : nat,
      out = results
            ++ map (fun j => calculateAtmosphere (sample_altitude alt stepM j))
                 (seq 0 k)
      /\ (forall j, (j < k)%nat -> sample_altitude alt stepM j <= endAltM)
      /\ endAltM < sample_altitude alt stepM k.
Proof.
  unfold sample_altitude.
  induction fuel as [|fuel IH]; intros alt results out Hrun.
  - discriminate.
  - cbn [generateProfile_loop] in Hrun.
    destruct (Rle_dec alt endAltM) as [Hle|Hgt].
    + destruct (IH _ _ _ Hrun) as (k & Hout & Hin & Hnext).
      exists (S k). split; [|split].
      * rewrite Hout, <- app_assoc. cbn [app seq map]. do 2 f_equal.
        -- f_equal. cbn [INR]. ring.
        -- rewrite <- seq_shift, map_map. apply map_ext. intros j.
           f_equal. rewrite S_INR. ring.
      * intros [|j] Hj.
        -- cbn [INR]. lra.
        -- specialize (Hin j ltac:(lia)). rewrite S_INR. lra.
      * rewrite S_INR. lra.
    + injection Hrun as <-. exists 0%nat. split; [|split].
      * cbn. now rewrite app_nil_r.
      * intros j Hj. lia.
      * cbn [INR]. lra.
Qed.

End ProfileReturn.

Lemma generateProfile_inv (fuel : nat) (startAltM endAltM stepM : R)
    (results : list AtmosphericResult) :
  generateProfile fuel startAltM endAltM stepM = Some results ->
  results = map (fun j => calculateAtmosphere
                            (sample_altitude startAltM stepM j))
              (seq 0 (List.length results))
  /\ (forall j, (j < List.length results)%nat ->
        sample_altitude startAltM stepM j <= endAltM)
  /\ endAltM < sample_altitude startAltM stepM (List.length results).
Proof.
  intros Hrun.
  destruct (generateProfile_loop_inv _ _ _ _ _ _ Hrun) as (k & Hout & Hin & Hnext).
  cbn [app] in Hout.
  assert (Hlen : List.length results = k)
    by (rewrite Hout, length_map, length_seq; reflexivity).
  rewrite Hlen. auto.
Qed.

(** A run of the loop on concrete numbers. *)
Lemma generateProfile_0_1000_1000 :
  generateProfile 3 0 1000 1000
  = Some [calculateAtmosphere 0; calculateAtmosphere (0 + 1000)].
Proof.
  unfold generateProfile. cbn [generateProfile_loop].
  destruct (Rle_dec 0 1000); [|lra].
  destruct (Rle_dec (0 + 1000) 1000); [|lra].
  destruct (Rle_dec (0 + 1000 + 1000) 1000); [lra|].
  reflexivity.
Qed.

(** ** Altitudes along a profile *)

Lemma clamp_monotone (a b : R) :
  a <= b -> clamp 0 86000 a <= clamp 0 86000 b.
Proof.
  intros Hab. unfold clamp.
  repeat match goal with
  | |- context [Rlt_dec ?x ?y] => destruct (Rlt_dec x y)
  end; lra.
Qed.

Lemma StronglySorted_map_seq (rel : R -> R -> Prop) (f : nat -> R) :
  (forall i j, (i < j)%nat -> rel (f i) (f j)) ->
  forall n a, StronglySorted rel (map f (seq a n)).
Proof.
  intros Hf. induction n as [|n IH]; intros a; cbn [seq map].
  - constructor.
  - constructor; [apply IH|].
    apply Forall_forall. intros y Hy.
    apply in_map_iff in Hy. destruct Hy as (j & <- & Hj).
    apply in_seq in Hj. apply Hf. lia.
Qed.

Lemma sample_altitude_increasing (startAltM stepM : R) (i j : nat) :
  0 < stepM -> (i < j)%nat ->
  sample_altitude startAltM stepM i < sample_altitude startAltM stepM j.
Proof.
  intros Hstep Hij. unfold sample_altitude.
  apply lt_INR in Hij. nra.
Qed.

Lemma profile_altitudes (fuel : nat) (startAltM endAltM stepM : R)
    (results : list AtmosphericResult) :
  generateProfile fuel startAltM endAltM stepM = Some results ->
  map altitude results =
    map (fun j => clamp 0 86000 (sample_altitude startAltM stepM j))
      (seq 0 (List.length results)).
Proof.
  intros Hrun.
  destruct (generateProfile_inv _ _ _ _ _ Hrun) as (Hout & _ & _).
  rewrite Hout at 1. rewrite map_map. apply map_ext.
  intros j. apply calculateAtmosphere_altitude.
Qed.

(** X14: along a profile generated with a positive step the altitude
    fields never decrease, and each lies between 0 and 86000, whatever
    the start and the end. *)
Theorem generateProfile_altitudes_sorted
    (fuel : nat) (startAltM endAltM stepM : R)
    (results : list AtmosphericResult) :
  0 < stepM ->
  generateProfile fuel startAltM endAltM stepM = Some results ->
  StronglySorted Rle (map altitude results)
  /\ Forall (fun r => 0 <= altitude r <= 86000) results.
Proof.
  intros Hstep Hrun. split.
  - rewrite (profile_altitudes _ _ _ _ _ Hrun).
    apply StronglySorted_map_seq. intros i j Hij.
    apply clamp_monotone. left.
    apply sample_altitude_increasing; assumption.
  - destruct (generateProfile_inv _ _ _ _ _ Hrun) as (Hout & _ & _).
    rewrite Hout. apply Forall_map, Forall_forall. intros j _.
    rewrite calculateAtmosphere_altitude. apply clamp_bounds.
Qed.

Lemma generateProfile_altitudes_sorted_witness :
  0 < 1000
  /\ StronglySorted Rle
       (map altitude [calculateAtmosphere 0; calculateAtmosphere (0 + 1000)]).
Proof.
  assert (H : 0 < 1000) by lra.
  split; [exact H|].
  exact (proj1 (generateProfile_altitudes_sorted 3 0 1000 1000 _ H
                  generateProfile_0_1000_1000)).
Defined.

(** ** The calculator page *)

(** X18: the profile the page charts and exports is made of 87 samples,
    at 0, 1000, ..., 86000 m in this order; none of them is clamped, the
    first lies in the Troposphere and the last is the only one in the
    Mesopause. *)
Theorem Calculator_profileData_samples (fuel : nat) :
  (88 <= fuel)%nat ->
  exists results : list AtmosphericResult,
    Calculator_profileData fuel = Some results
    /\ List.length results = 87%nat
    /\ (forall j, (j < 87)%nat ->
          nth_error results j = Some (calculateAtmosphere (INR j * 1000))
          /\ altitude (calculateAtmosphere (INR j * 1000)) = INR j * 1000
          /\ (layer (calculateAtmosphere (INR j * 1000)) = Mesopause
              <-> j = 86%nat))
    /\ layer (calculateAtmosphere (INR 0 * 1000)) = Troposphere.
Proof.
  intros Hfuel.
  exists (map (fun j => calculateAtmosphere (INR j * 1000)) (seq 0 87)).
  assert (H87 : INR 87 = 87) by (rewrite INR_IZR_INZ; reflexivity).
  assert (H86 : INR 86 = 86) by (rewrite INR_IZR_INZ; reflexivity).
  split; [|split; [|split]].
  - unfold Calculator_profileData, generateProfile.
    rewrite (generateProfile_loop_runs 86000 1000 87).
    + cbn [app]. f_equal. apply map_ext. intros j.
      unfold sample_altitude. f_equal. ring.
    + lia.
    + intros j Hj. unfold sample_altitude.
      assert (Hle : INR j <= INR 86) by (apply le_INR; lia).
      rewrite H86 in Hle. lra.
    + unfold sample_altitude. rewrite H87. lra.
  - rewrite length_map, length_seq. reflexivity.
  - intros j Hj.
    assert (Hle : INR j <= INR 86) by (apply le_INR; lia).
    rewrite H86 in Hle. pose proof (pos_INR j) as Hpos.
    assert (Hc : Math.max 0 (Math.min 86000 (INR j * 1000)) = INR j * 1000).
    { rewrite max_min_clamp. apply clamp_fixes. lra. }
    split; [|split].
    + rewrite nth_error_map, nth_error_seq.
      destruct (Nat.ltb_spec j 87); [reflexivity | lia].
    + rewrite calculateAtmosphere_altitude. apply clamp_fixes. lra.
    + unfold calculateAtmosphere. cbn [layer]. rewrite Hc. split.
      * intros HM.
        assert (Hj86 : ~ (j < 86)%nat).
        { intros Hlt. apply lt_INR in Hlt. rewrite H86 in Hlt.
          layer_cases (INR j * 1000); try lra;
            rewrite Elayer in HM; discriminate HM. }
        lia.
      * intros ->. rewrite H86. apply getLayer_Mesopause. lra.
  - unfold calculateAtmosphere. cbn [layer INR].
    rewrite max_min_clamp, clamp_fixes by lra.
    layer_cases (0 * 1000); try lra. exact Elayer.
Qed.

Lemma Calculator_profileData_samples_witness :
  (88 <= 88)%nat
  /\ exists results : list AtmosphericResult,
       Calculator_profileData 88 = Some results
       /\ List.length results = 87%nat.
Proof.
  assert (H : (88 <= 88)%nat) by lia.
  split; [exact H|].
  destruct (Calculator_profileData_samples 88 H) as (results & Hrun & Hlen & _).
  exists results. split; [exact Hrun | exact Hlen].
Defined.

(** ** Monotonicity of the density *)

Lemma negative_lapse_exponent_gt_1 (l : AtmosphericLayer) :
  In l LAYERS -> lapseRate l < 0 ->
  1 < - ISA_CONSTANTS.g0 / (lapseRate l * ISA_CONSTANTS.R).
Proof.
  intros Hin HL.
  set (e := - ISA_CONSTANTS.g0 / (lapseRate l * ISA_CONSTANTS.R)).
  assert (He : e * (lapseRate l * ISA_CONSTANTS.R) = - ISA_CONSTANTS.g0).
  { unfold e, Rdiv. rewrite Rmult_assoc, Rinv_l; [ring|].
    unfold ISA_CONSTANTS.R. nra. }
  clearbody e. unfold ISA_CONSTANTS.g0, ISA_CONSTANTS.R in He.
  cbn in Hin.
  repeat (destruct Hin as [<-|Hin]); try contradiction;
    cbn [lapseRate Troposphere Tropopause StratosphereI StratosphereII
         Stratopause MesosphereI MesosphereII Mesopause] in *; lra.
Qed.

(** X20: between two altitudes of one layer, from 0 to 86000 m and at
    least one metre apart, the density computed from the pressure and
    the temperature is strictly lower at the higher altitude. *)
Theorem density_decreases_within_layer (h1 h2 : R) :
  0 <= h1 -> h1 + 1 <= h2 -> h2 <= 86000 ->
  getLayer h1 = getLayer h2 ->
  calculateDensity (calculatePressure h2) (calculateTemperature h2)
  < calculateDensity (calculatePressure h1) (calculateTemperature h1).
Proof.
  intros _ Hgap _ HL.
  assert (Hlt : h1 < h2) by lra.
  pose proof (calculateTemperature_pos h1) as HT1.
  pose proof (calculateTemperature_pos h2) as HT2.
  pose proof (calculatePressure_pos h1) as HP1.
  pose proof (calculatePressure_pos h2) as HP2.
  assert (HR : 0 < ISA_CONSTANTS.R) by (unfold ISA_CONSTANTS.R; lra).
  assert (HdT : calculateTemperature h2 - calculateTemperature h1
                = lapseRate (getLayer h1) * (h2 - h1)).
  { rewrite !calculateTemperature_in_layer, <- HL. ring. }
  assert (Hcross : calculatePressure h2 * calculateTemperature h1
                   < calculatePressure h1 * calculateTemperature h2).
  { destruct (Rlt_le_dec (lapseRate (getLayer h1)) 0) as [Hneg|Hpos].
    - pose proof (basePressure_bounds _ (getLayer_In h1)) as [HPb _].
      pose proof (baseTemperature_pos _ (getLayer_In h1)) as HTb.
      pose proof (negative_lapse_exponent_gt_1 _ (getLayer_In h1) Hneg) as He.
      rewrite (calculatePressure_gradient h1) by lra.
      rewrite (calculatePressure_gradient h2) by (rewrite <- HL; lra).
      unfold gradient_pressure. rewrite <- HL.
      set (Pb := basePressure (getLayer h1)) in *.
      set (Tb := baseTemperature (getLayer h1)) in *.
      set (e := - ISA_CONSTANTS.g0
                / (lapseRate (getLayer h1) * ISA_CONSTANTS.R)) in *.
      set (x1 := calculateTemperature h1 / Tb).
      set (x2 := calculateTemperature h2 / Tb).
      assert (Hx2 : 0 < x2) by (apply Rdiv_lt_0_compat; assumption).
      assert (Hx21 : x2 < x1).
      { apply Rmult_lt_compat_r; [apply Rinv_0_lt_compat; exact HTb | nra]. }
      assert (Hpow : Rpower x2 (e - 1) < Rpower x1 (e - 1))
        by (apply Rlt_Rpower_l; lra).
      assert (Hsplit : forall x, 0 < x -> Rpower x e = Rpower x (e - 1) * x).
      { intros x Hx. replace e with (e - 1 + 1) at 1 by ring.
        rewrite Rpower_plus, (Rpower_1 _ Hx). reflexivity. }
      rewrite (Hsplit x1) by lra. rewrite (Hsplit x2) by lra.
      assert (E1 : calculateTemperature h1 = x1 * Tb)
        by (unfold x1; field; lra).
      assert (E2 : calculateTemperature h2 = x2 * Tb)
        by (unfold x2; field; lra).
      rewrite E1, E2.
      assert (Hq2 : 0 < Rpower x2 (e - 1)) by apply exp_pos.
      assert (Hk : 0 < Pb * Tb * (x1 * x2)).
      { apply Rmult_lt_0_compat; apply Rmult_lt_0_compat; lra. }
      replace (Pb * (Rpower x2 (e - 1) * x2) * (x1 * Tb))
        with (Pb * Tb * (x1 * x2) * Rpower x2 (e - 1)) by ring.
      replace (Pb * (Rpower x1 (e - 1) * x1) * (x2 * Tb))
        with (Pb * Tb * (x1 * x2) * Rpower x1 (e - 1)) by ring.
      apply Rmult_lt_compat_l; assumption.
    - pose proof (calculatePressure_decreasing_in_layer h1 h2 Hlt HL) as HP.
      assert (calculateTemperature h1 <= calculateTemperature h2) by nra.
      nra. }
  unfold calculateDensity.
  apply (Rmult_lt_reg_r
           ((ISA_CONSTANTS.R * calculateTemperature h2)
            * (ISA_CONSTANTS.R * calculateTemperature h1))).
  - apply Rmult_lt_0_compat; nra.
  - replace (calculatePressure h2 / (ISA_CONSTANTS.R * calculateTemperature h2)
             * (ISA_CONSTANTS.R * calculateTemperature h2
                * (ISA_CONSTANTS.R * calculateTemperature h1)))
      with (ISA_CONSTANTS.R
            * (calculatePressure h2 * calculateTemperature h1))
      by (field; lra).
    replace (calculatePressure h1 / (ISA_CONSTANTS.R * calculateTemperature h1)
             * (ISA_CONSTANTS.R * calculateTemperature h2
                * (ISA_CONSTANTS.R * calculateTemperature h1)))
      with (ISA_CONSTANTS.R
            * (calculatePressure h1 * calculateTemperature h2))
      by (field; lra).
    apply Rmult_lt_compat_l; assumption.
Qed.

Lemma density_decreases_within_layer_witness :
  (0 <= 1000 /\ 1000 + 1 <= 9000 /\ 9000 <= 86000)
  /\ getLayer 1000 = getLayer 9000
  /\ calculateDensity (calculatePressure 9000) (calculateTemperature 9000)
     < calculateDensity (calculatePressure 1000) (calculateTemperature 1000).
Proof.
  assert (H0 : 0 <= 1000) by lra.
  assert (H1 : 1000 + 1 <= 9000) by lra.
  assert (H3 : 9000 <= 86000) by lra.
  assert (H2 : getLayer 1000 = getLayer 9000).
  { transitivity Troposphere.
    - layer_cases 1000; try lra; exact Elayer.
    - symmetry. layer_cases 9000; try lra; exact Elayer. }
  split; [auto|]. split; [exact H2|].
  exact (density_decreases_within_layer 1000 9000 H0 H1 H3 H2).
Defined.

(** * Properties of the binary64 program

    Statements that depend on the rounding of [alt += stepM], on
    overflow, on the signed zeros or on NaN. *)

(** ** The profile loop *)

Section Binary64Profile.

Import PrimFloat.

Variable Math_exp : float -> float.
Variable Math_pow : float -> float -> float.
Variables endAltM stepM : float.

Lemma samples_step (alt : float) (k : nat) :
  B64.profile_samples Math_exp Math_pow alt stepM (S k)
  = B64.calculateAtmosphere Math_exp Math_pow alt
    :: B64.profile_samples Math_exp Math_pow (alt + stepM)%float stepM k.
Proof.
  unfold B64.profile_samples. cbn [seq map B64.running_altitude]. f_equal.
  rewrite <- seq_shift, map_map. reflexivity.
Qed.

Lemma loop64_inv :
  forall (fuel : nat) (alt : float) (results out : list B64.AtmosphericResult),
    B64.generateProfile_loop Math_exp Math_pow fuel alt endAltM stepM results
    = Some out ->
    exists k : nat,
      (k < fuel)%nat
      /\ out = results ++ B64.profile_samples Math_exp Math_pow alt stepM k
      /\ (forall j, (j < k)%nat ->
            (B64.running_altitude alt stepM j <=? endAltM)%float = true)
      /\ (B64.running_altitude alt stepM k <=? endAltM)%float = false.
Proof.
  induction fuel as [|fuel IH]; intros alt results out Hrun.
  - discriminate.
  - cbn [B64.generateProfile_loop] in Hrun.
    destruct (alt <=? endAltM)%float eqn:Hle.
    + destruct (IH _ _ _ Hrun) as (k & Hk & Hout & Hin & Hnext).
      exists (S k). split; [lia|]. split; [|split].
      * rewrite Hout, samples_step, <- app_assoc. reflexivity.
      * intros [|j] Hj; [exact Hle|]. apply Hin. lia.
      * exact Hnext.
    + injection Hrun as <-. exists 0%nat. split; [lia|]. split; [|split].
      * unfold B64.profile_samples. cbn. now rewrite app_nil_r.
      * intros j Hj. lia.
      * exact Hle.
Qed.

Lemma loop64_runs (k : nat) :
  forall (fuel : nat) (alt : float) (results : list B64.AtmosphericResult),
    (k < fuel)%nat ->
    (forall j, (j < k)%nat ->
       (B64.running_altitude alt stepM j <=? endAltM)%float = true) ->
    (B64.running_altitude alt stepM k <=? endAltM)%float = false ->
    B64.generateProfile_loop Math_exp Math_pow fuel alt endAltM stepM results
    = Some (results ++ B64.profile_samples Math_exp Math_pow alt stepM k).
Proof.
  induction k as [|k IH]; intros fuel alt results Hfuel Hin Hnext.
  - destruct fuel as [|fuel]; [lia|].
    cbn [B64.generateProfile_loop B64.running_altitude] in *. rewrite Hnext.
    unfold B64.profile_samples. cbn. now rewrite app_nil_r.
  - destruct fuel as [|fuel]; [lia|]. cbn [B64.generateProfile_loop].
    pose proof (Hin 0%nat ltac:(lia)) as H0.
    cbn [B64.running_altitude] in H0. rewrite H0.
    rewrite IH.
    + rewrite samples_step, <- app_assoc. reflexivity.
    + lia.
    + intros j Hj. apply (Hin (S j)). lia.
    + exact Hnext.
Qed.



End Binary64Profile.

Section Binary64Clamp.

Import PrimFloat FloatOps FloatAxioms SpecFloat.

Lemma Prim2SF_0 : Prim2SF 0%float = S754_zero false.
Proof. reflexivity. Qed.

Lemma Prim2SF_86000 :
  Prim2SF 86000%float = S754_finite false 5909874999296000 (-36).
Proof. reflexivity. Qed.

(** Two finite numbers that compare equal are the same number. *)
Lemma SFcompare_finite_Eq (s1 s2 : bool) (m1 m2 : positive) (e1 e2 : Z) :
  SFcompare (S754_finite s1 m1 e1) (S754_finite s2 m2 e2) = Some Eq ->
  S754_finite s1 m1 e1 = S754_finite s2 m2 e2.
Proof.
  cbn. fold (Pos.compare m1 m2).
  destruct s1, s2; try discriminate;
    destruct (Z.compare_spec e1 e2) as [He|He|He]; try discriminate;
    destruct (Pos.compare_spec m1 m2) as [Hm|Hm|Hm]; try discriminate;
    intros _; now subst.
Qed.

(** The clamp [Math.max(0, Math.min(86000, a))] by the position of [a]. *)
Lemma clamp64_high (a : float) :
  (86000 <=? a)%float = true ->
  B64.Math.max 0 (B64.Math.min 86000 a) = 86000%float.
Proof.
  intros H. rewrite leb_spec, Prim2SF_86000 in H.
  assert (Hmin : B64.Math.min 86000 a = 86000%float).
  { unfold B64.Math.min. rewrite compare_spec, Prim2SF_86000.
    destruct (Prim2SF a) as [s|s| |s m e] eqn:Ea; try discriminate H.
    - destruct s; [discriminate H | reflexivity].
    - unfold SFleb in H.
      destruct (SFcompare (S754_finite false 5909874999296000 (-36))
                  (S754_finite s m e)) as [[ | | ]|] eqn:Hc;
        try discriminate H; cbn [flatten_cmp_opt]; [|reflexivity].
      apply SFcompare_finite_Eq in Hc. rewrite <- Hc, <- Prim2SF_86000 in Ea.
      apply Prim2SF_inj in Ea. subst a. reflexivity. }
  rewrite Hmin. reflexivity.
Qed.

Lemma clamp64_low (a : float) :
  (a <=? 0)%float = true ->
  B64.Math.max 0 (B64.Math.min 86000 a) = 0%float.
Proof.
  intros H. rewrite leb_spec, Prim2SF_0 in H.
  unfold B64.Math.max, B64.Math.min.
  rewrite (compare_spec 86000 a), Prim2SF_86000.
  destruct (Prim2SF a) as [s|s| |s m e] eqn:Ea; try discriminate H.
  - cbn [SFcompare flatten_cmp_opt].
    rewrite compare_spec, Prim2SF_0, Ea. reflexivity.
  - destruct s; [|discriminate H]. cbn [SFcompare flatten_cmp_opt].
    rewrite compare_spec, Prim2SF_0, Ea. reflexivity.
  - destruct s; [|discriminate H]. cbn [SFcompare flatten_cmp_opt].
    rewrite compare_spec, Prim2SF_0, Ea. reflexivity.
Qed.

Lemma SFcompare_finite_refl (s : bool) (m : positive) (e : Z) :
  SFcompare (S754_finite s m e) (S754_finite s m e) = Some Eq.
Proof.
  cbn. destruct s; rewrite Z.compare_refl, Pos.compare_cont_refl; reflexivity.
Qed.

Lemma SFcompare_positive_swap (m1 m2 : positive) (e1 e2 : Z) :
  SFcompare (S754_finite false m1 e1) (S754_finite false m2 e2) = Some Lt ->
  SFcompare (S754_finite false m2 e2) (S754_finite false m1 e1) = Some Gt.
Proof.
  cbn. rewrite (Z.compare_antisym e1 e2).
  change Eq with (CompOpp Eq) at 2.
  rewrite <- (Pos.compare_cont_antisym m1 m2 Eq).
  destruct (e1 ?= e2)%Z; cbn;
    [destruct (Pos.compare_cont Eq m1 m2)| |]; cbn; congruence.
Qed.

Lemma clamp64_mid (a : float) :
  (0 <=? a)%float = true -> (a <=? 86000)%float = true ->
  (B64.Math.max 0 (B64.Math.min 86000 a) =? a)%float = true.
Proof.
  intros H0 H1.
  rewrite leb_spec, Prim2SF_0 in H0.
  rewrite leb_spec, Prim2SF_86000 in H1.
  destruct (Prim2SF a) as [s|s| |s m e] eqn:Ea;
    try discriminate H0; try discriminate H1.
  - (* a zero *)
    assert (Hmin : B64.Math.min 86000 a = a).
    { unfold B64.Math.min. rewrite compare_spec, Prim2SF_86000, Ea.
      reflexivity. }
    rewrite Hmin. unfold B64.Math.max. rewrite compare_spec, Prim2SF_0, Ea.
    cbn [SFcompare flatten_cmp_opt]. change (get_sign 0) with false.
    cbv iota. rewrite eqb_spec, Prim2SF_0, Ea. reflexivity.
  - destruct s; [discriminate H0 | discriminate H1].
  - destruct s; [discriminate H0|].
    assert (Hmin : B64.Math.min 86000 a = a).
    { unfold B64.Math.min. rewrite compare_spec, Prim2SF_86000, Ea.
      unfold SFleb in H1.
      destruct (SFcompare (S754_finite false m e)
                  (S754_finite false 5909874999296000 (-36)))
        as [[ | | ]|] eqn:Hc; try discriminate H1.
      - apply SFcompare_finite_Eq in Hc. rewrite <- Hc.
        rewrite SFcompare_finite_refl. reflexivity.
      - rewrite (SFcompare_positive_swap _ _ _ _ Hc). reflexivity. }
    rewrite Hmin. unfold B64.Math.max. rewrite compare_spec, Prim2SF_0, Ea.
    cbn [SFcompare flatten_cmp_opt].
    rewrite eqb_spec, Ea. unfold SFeqb.
    rewrite SFcompare_finite_refl. reflexivity.
Qed.

End Binary64Clamp.

Section Binary64Order.

Import PrimFloat FloatOps FloatAxioms SpecFloat.
#[local] Set Warnings "-inexact-float".

(** The order of binary64 is transitive. *)
Lemma SFleb_trans (x y z : spec_float) :
  SFleb x y = true -> SFleb y z = true -> SFleb x z = true.
Proof.
  unfold SFleb.
  destruct x as [sx|sx| |sx mx ex], y as [sy|sy| |sy my ey],
           z as [sz|sz| |sz mz ez]; cbn;
    try destruct sx; try destruct sy; try destruct sz; cbn;
    try congruence;
    change (Pos.compare_cont Eq) with Pos.compare;
    destruct (Z.compare_spec ex ey); destruct (Z.compare_spec ey ez);
    destruct (Z.compare_spec ex ez); try lia; cbn; try congruence;
    destruct (Pos.compare_spec mx my); destruct (Pos.compare_spec my mz);
    destruct (Pos.compare_spec mx mz); try lia; cbn; congruence.
Qed.

Lemma leb_trans (x y z : float) :
  (x <=? y)%float = true -> (y <=? z)%float = true -> (x <=? z)%float = true.
Proof. rewrite !leb_spec. apply SFleb_trans. Qed.

(** Shifting a mantissa to the right keeps it non-negative. *)
Lemma shr_1_nonneg (mrs : shr_record) :
  (0 <= shr_m mrs)%Z -> (0 <= shr_m (shr_1 mrs))%Z.
Proof.
  destruct mrs as [m r s]. cbn.
  destruct m as [|[p|p|]|p]; cbn; lia.
Qed.

Lemma iter_shr_1_nonneg (p : positive) (mrs : shr_record) :
  (0 <= shr_m mrs)%Z -> (0 <= shr_m (iter_pos shr_1 p mrs))%Z.
Proof.
  revert mrs. induction p as [p IH|p IH|]; intros mrs H; cbn.
  - apply IH, IH, shr_1_nonneg, H.
  - apply IH, IH, H.
  - apply shr_1_nonneg, H.
Qed.

Lemma shr_fexp_nonneg (m e : Z) (l : location) :
  (0 <= m)%Z -> (0 <= shr_m (fst (shr_fexp prec emax m e l)))%Z.
Proof.
  intros Hm. unfold shr_fexp, shr.
  assert (H0 : (0 <= shr_m (shr_record_of_loc m l))%Z)
    by (destruct l as [|[ | | ]]; exact Hm).
  destruct (fexp prec emax (Zdigits2 m + e) - e)%Z; cbn [fst];
    [exact H0 | apply iter_shr_1_nonneg, H0 | exact H0].
Qed.

Lemma round_nearest_even_nonneg (m : Z) (l : location) :
  (0 <= m)%Z -> (0 <= round_nearest_even m l)%Z.
Proof.
  intros Hm. destruct l as [|[ | | ]]; cbn; [lia | | lia | lia].
  destruct (Z.even m); lia.
Qed.

(** Rounding a positive mantissa gives a zero, a finite number or an
    infinity, of the sign asked for. *)
Lemma binary_round_aux_sign (sx : bool) (m : positive) (e : Z) :
  let r := binary_round_aux prec emax sx (Zpos m) e loc_Exact in
  r = S754_zero sx \/ r = S754_infinity sx
  \/ exists m' e', r = S754_finite sx m' e'.
Proof.
  unfold binary_round_aux.
  pose proof (shr_fexp_nonneg (Zpos m) e loc_Exact ltac:(lia)) as H1.
  destruct (shr_fexp prec emax (Zpos m) e loc_Exact) as [mrs' e'].
  cbn [fst] in H1.
  pose proof (shr_fexp_nonneg
                (round_nearest_even (shr_m mrs') (loc_of_shr_record mrs'))
                e' loc_Exact
                (round_nearest_even_nonneg _ _ H1)) as H2.
  destruct (shr_fexp prec emax
              (round_nearest_even (shr_m mrs') (loc_of_shr_record mrs'))
              e' loc_Exact) as [mrs'' e''].
  cbn [fst] in H2.
  destruct (shr_m mrs'') as [|m''|m'']; [left; reflexivity | | lia].
  destruct (e'' <=? emax - prec)%Z;
    [right; right; eexists _, _; reflexivity | right; left; reflexivity].
Qed.

Lemma SFleb_zero_cases (x : spec_float) :
  SFleb (S754_zero false) x = true ->
  x = S754_infinity false \/ (exists s, x = S754_zero s)
  \/ exists m e, x = S754_finite false m e.
Proof.
  unfold SFleb. destruct x as [s|s| |s m e]; cbn.
  - intros _. right. left. exists s. reflexivity.
  - destruct s; [discriminate|]. intros _. left. reflexivity.
  - discriminate.
  - destruct s; [discriminate|]. intros _. right. right.
    exists m, e. reflexivity.
Qed.

(** The sum of two binary64 numbers that are not below zero is not below
    zero (it may be [Infinity]). *)
Lemma add_nonneg (a s : float) :
  (0 <=? a)%float = true -> (0 <=? s)%float = true ->
  (0 <=? a + s)%float = true.
Proof.
  rewrite !leb_spec, add_spec.
  change (Prim2SF 0) with (S754_zero false).
  intros Ha Hs.
  destruct (SFleb_zero_cases _ Ha) as [-> | [[sa ->] | (ma & ea & ->)]];
    destruct (SFleb_zero_cases _ Hs) as [-> | [[ss ->] | (ms & es & ->)]];
    try reflexivity;
    try (destruct sa; reflexivity);
    try (destruct ss; reflexivity);
    try (destruct sa, ss; reflexivity).
  unfold SF64add, SFadd, cond_Zopp.
  cbn [Z.add binary_normalize]. unfold binary_round.
  match goal with
  | |- context [shl_align ?a ?b ?c] =>
      destruct (shl_align a b c) as [mz ez]
  end.
  destruct (binary_round_aux_sign false mz ez) as [-> | [-> | (m' & e' & ->)]];
    reflexivity.
Qed.

Lemma running_altitude_nonneg (startAltM stepM : float) (j : nat) :
  (0 <=? startAltM)%float = true -> (0 <=? stepM)%float = true ->
  (0 <=? B64.running_altitude startAltM stepM j)%float = true.
Proof.
  revert startAltM. induction j as [|j IH]; intros startAltM H0 Hs.
  - exact H0.
  - cbn. apply IH; [apply add_nonneg; assumption | exact Hs].
Qed.

End Binary64Order.

Section Binary64Results.

Import PrimFloat FloatOps FloatAxioms SpecFloat.

Lemma running_checked (startAltM endAltM stepM : float) (k : nat) (b : bool) :
  forallb (fun j => Bool.eqb (B64.running_altitude startAltM stepM j
                              <=? endAltM)%float b) (seq 0 k) = true ->
  forall j, (j < k)%nat ->
    (B64.running_altitude startAltM stepM j <=? endAltM)%float = b.
Proof.
  intros Hall j Hj. rewrite forallb_forall in Hall.
  apply Bool.eqb_prop, Hall, in_seq. lia.
Qed.


End Binary64Results.

Section Binary64Claims.

Import PrimFloat FloatOps FloatAxioms SpecFloat.
#[local] Set Warnings "-inexact-float".



End Binary64Claims.

Section Binary64Conversion.

Import PrimFloat FloatOps FloatAxioms SpecFloat.
#[local] Set Warnings "-inexact-float".





End Binary64Conversion.

Section Binary64Extras.

Import PrimFloat FloatOps FloatAxioms SpecFloat.
#[local] Set Warnings "-inexact-float".

Lemma SFcompare_antisym (x y : spec_float) :
  SFcompare y x = option_map CompOpp (SFcompare x y).
Proof.
  destruct x as [sx|sx| |sx mx ex], y as [sy|sy| |sy my ey];
    try reflexivity;
    try (destruct sx; reflexivity); try (destruct sy; reflexivity);
    try (destruct sx, sy; reflexivity).
  assert (Hp : Pos.compare_cont Eq my mx = CompOpp (Pos.compare_cont Eq mx my))
    by (symmetry; apply (Pos.compare_cont_antisym mx my Eq)).
  cbn. rewrite (Z.compare_antisym ex ey), Hp.
  destruct sx, sy; try reflexivity;
    destruct (ex ?= ey)%Z; cbn; try reflexivity;
    destruct (Pos.compare_cont Eq mx my); reflexivity.
Qed.

Lemma leb_not_ltb (x y : float) :
  (x <=? y)%float = true -> (y <? x)%float = false.
Proof.
  rewrite leb_spec, ltb_spec. unfold SFleb, SFltb.
  rewrite (SFcompare_antisym (Prim2SF x) (Prim2SF y)).
  destruct (SFcompare (Prim2SF x) (Prim2SF y)) as [[ | | ]|];
    cbn; congruence.
Qed.

(** [calculateAtmosphere] reads its argument through the clamp only. *)
Lemma calculateAtmosphere64_of_clamped
    (Math_exp : float -> float) (Math_pow : float -> float -> float)
    (a c : float) :
  B64.Math.max 0 (B64.Math.min 86000 a) = c ->
  B64.Math.max 0 (B64.Math.min 86000 c) = c ->
  B64.calculateAtmosphere Math_exp Math_pow a
  = B64.calculateAtmosphere Math_exp Math_pow c.
Proof.
  intros Ha Hc. unfold B64.calculateAtmosphere. rewrite Ha, Hc. reflexivity.
Qed.

(** What a returned profile holds at each index. *)
Lemma generateProfile64_nth
    (Math_exp : float -> float) (Math_pow : float -> float -> float)
    (fuel : nat) (startAltM endAltM stepM : float)
    (results : list B64.AtmosphericResult) :
  B64.generateProfile Math_exp Math_pow fuel startAltM endAltM stepM
  = Some results ->
  results = B64.profile_samples Math_exp Math_pow startAltM stepM
              (List.length results)
  /\ (forall j, (j < List.length results)%nat ->
        nth_error results j
        = Some (B64.calculateAtmosphere Math_exp Math_pow
                  (B64.running_altitude startAltM stepM j))
        /\ (B64.running_altitude startAltM stepM j <=? endAltM)%float = true).
Proof.
  intros Hrun.
  destruct (loop64_inv _ _ _ _ _ _ _ _ Hrun) as (k & _ & Hout & Hin & _).
  cbn [app] in Hout.
  assert (Hlen : List.length results = k).
  { rewrite Hout. unfold B64.profile_samples.
    rewrite length_map, length_seq. reflexivity. }
  rewrite Hlen. split; [exact Hout|].
  intros j Hj. split; [|apply Hin, Hj].
  rewrite Hout. unfold B64.profile_samples.
  rewrite nth_error_map, nth_error_seq.
  destruct (Nat.ltb_spec j k); [reflexivity | lia].
Qed.



(** X16: in any returned profile, a sample whose running altitude is at
    or above 86000 is the result at 86000, and a sample whose running
    altitude is at or below 0 is the result at 0. *)
Theorem generateProfile_saturates_running
    (Math_exp : float -> float) (Math_pow : float -> float -> float)
    (fuel : nat) (startAltM endAltM stepM : float)
    (results : list B64.AtmosphericResult) (j : nat) :
  B64.generateProfile Math_exp Math_pow fuel startAltM endAltM stepM
  = Some results ->
  (j < List.length results)%nat ->
  ((86000 <=? B64.running_altitude startAltM stepM j)%float = true ->
     nth_error results j
     = Some (B64.calculateAtmosphere Math_exp Math_pow 86000))
  /\ ((B64.running_altitude startAltM stepM j <=? 0)%float = true ->
     nth_error results j
     = Some (B64.calculateAtmosphere Math_exp Math_pow 0)).
Proof.
  intros Hrun Hj.
  destruct (generateProfile64_nth _ _ _ _ _ _ _ Hrun) as [_ Hnth].
  rewrite (proj1 (Hnth j Hj)). split; intros Hsat; f_equal;
    apply calculateAtmosphere64_of_clamped.
  - apply clamp64_high, Hsat.
  - reflexivity.
  - apply clamp64_low, Hsat.
  - reflexivity.
Qed.

Lemma generateProfile_saturates_running_witness :
  ((86000 <=? B64.running_altitude 85999 0.2 5)%float = false
   /\ (86000 <=? B64.running_altitude 85999 0.2 6)%float = true)
  /\ forall Math_exp Math_pow,
       nth_error (B64.profile_samples Math_exp Math_pow 85999 0.2 11) 6
       = Some (B64.calculateAtmosphere Math_exp Math_pow 86000).
Proof.
  split; [split; reflexivity|]. intros Math_exp Math_pow.
  assert (Hrun : B64.generateProfile Math_exp Math_pow 12 85999 86001 0.2
                 = Some (B64.profile_samples Math_exp Math_pow 85999 0.2 11)).
  { unfold B64.generateProfile.
    rewrite (loop64_runs Math_exp Math_pow _ _ 11);
      [reflexivity | lia | | vm_compute; reflexivity].
    apply running_checked. vm_compute. reflexivity. }
  destruct (generateProfile_saturates_running _ _ _ _ _ _ _ 6 Hrun) as [Hhi _].
  - unfold B64.profile_samples. rewrite length_map, length_seq. lia.
  - apply Hhi. reflexivity.
Defined.

(** X17: the calculator page gives no result for an input that is NaN
    or whose conversion to metres is below 0 or above 86000.  For an
    input that is a number and whose conversion [altitudeM] satisfies
    [0 <= altitudeM <= 86000] it gives the atmosphere at [altitudeM],
    and the altitude of that result equals [altitudeM]: the page never
    shows a clamped altitude. *)
Theorem Calculator_result_unclamped
    (Math_exp : float -> float) (Math_pow : float -> float -> float)
    (value : float) (altitudeUnit : AltitudeUnit.t) :
  let altitudeM := B64.convertAltitude value altitudeUnit AltitudeUnit.m in
  (is_nan value = true ->
     B64.Calculator_result Math_exp Math_pow value altitudeUnit = None)
  /\ ((altitudeM <? 0)%float = true \/ (86000 <? altitudeM)%float = true ->
     B64.Calculator_result Math_exp Math_pow value altitudeUnit = None)
  /\ (is_nan value = false ->
      (0 <=? altitudeM)%float = true -> (altitudeM <=? 86000)%float = true ->
      B64.Calculator_result Math_exp Math_pow value altitudeUnit
      = Some (B64.calculateAtmosphere Math_exp Math_pow altitudeM)
      /\ (B64.altitude (B64.calculateAtmosphere Math_exp Math_pow altitudeM)
          =? altitudeM)%float = true).
Proof.
  intros altitudeM. unfold B64.Calculator_result. fold altitudeM.
  split; [|split].
  - intros ->. reflexivity.
  - intros Hout. destruct (is_nan value); [reflexivity|].
    destruct Hout as [-> | ->]; [reflexivity|].
    rewrite Bool.orb_true_r. reflexivity.
  - intros -> H0 H1.
    rewrite (leb_not_ltb _ _ H0), (leb_not_ltb _ _ H1). cbn [orb].
    split; [reflexivity|].
    unfold B64.calculateAtmosphere. cbn [B64.altitude].
    apply clamp64_mid; assumption.
Qed.

Lemma Calculator_result_unclamped_witness :
  B64.convertAltitude 7 AltitudeUnit.ft AltitudeUnit.m = 2.1336%float
  /\ forall Math_exp Math_pow,
       B64.Calculator_result Math_exp Math_pow 7 AltitudeUnit.ft
       = Some (B64.calculateAtmosphere Math_exp Math_pow 2.1336)
       /\ B64.Calculator_result Math_exp Math_pow 300000 AltitudeUnit.ft
          = None.
Proof.
  split; [reflexivity|]. intros Math_exp Math_pow.
  destruct (Calculator_result_unclamped Math_exp Math_pow 7 AltitudeUnit.ft)
    as (_ & _ & Hin).
  destruct (Calculator_result_unclamped Math_exp Math_pow 300000
              AltitudeUnit.ft) as (_ & Hout & _).
  split.
  - exact (proj1 (Hin eq_refl eq_refl eq_refl)).
  - apply Hout. right. reflexivity.
Defined.

End Binary64Extras.

Section Binary64InRange.

Import PrimFloat FloatOps FloatAxioms SpecFloat.
#[local] Set Warnings "-inexact-float".

(** X15: in a profile returned for a start and a step that are not
    negative and an end of at most 86000, no sample is clamped: the
    running altitude of each sample lies between 0 and the end, and the
    altitude of the sample equals it. *)
Theorem generateProfile_in_range_not_clamped
    (Math_exp : float -> float) (Math_pow : float -> float -> float)
    (fuel : nat) (startAltM endAltM stepM : float)
    (results : list B64.AtmosphericResult) :
  (0 <=? startAltM)%float = true -> (0 <=? stepM)%float = true ->
  (endAltM <=? 86000)%float = true ->
  B64.generateProfile Math_exp Math_pow fuel startAltM endAltM stepM
  = Some results ->
  forall j, (j < List.length results)%nat ->
    (0 <=? B64.running_altitude startAltM stepM j)%float = true
    /\ (B64.running_altitude startAltM stepM j <=? endAltM)%float = true
    /\ exists r : B64.AtmosphericResult,
         nth_error results j = Some r
         /\ (B64.altitude r =? B64.running_altitude startAltM stepM j)%float
            = true.
Proof.
  intros Hstart Hstep Hend Hrun j Hj.
  destruct (generateProfile64_nth _ _ _ _ _ _ _ Hrun) as [_ Hnth].
  destruct (Hnth j Hj) as [Hr Hle].
  pose proof (running_altitude_nonneg startAltM stepM j Hstart Hstep) as H0.
  split; [exact H0|]. split; [exact Hle|].
  eexists. split; [exact Hr|].
  unfold B64.calculateAtmosphere. cbn [B64.altitude].
  apply clamp64_mid; [exact H0 | exact (leb_trans _ _ _ Hle Hend)].
Qed.

Lemma generateProfile_in_range_not_clamped_witness :
  ((0 <=? 0)%float = true /\ (0 <=? 0.1)%float = true
   /\ (1 <=? 86000)%float = true
   /\ B64.running_altitude 0 0.1 8 = 0.7999999999999999%float)
  /\ forall Math_exp Math_pow,
     exists r : B64.AtmosphericResult,
       nth_error (B64.profile_samples Math_exp Math_pow 0 0.1 11) 8 = Some r
       /\ (B64.altitude r =? 0.7999999999999999)%float = true.
Proof.
  split; [repeat split; reflexivity|]. intros Math_exp Math_pow.
  assert (Hrun : B64.generateProfile Math_exp Math_pow 12 0 1 0.1
                 = Some (B64.profile_samples Math_exp Math_pow 0 0.1 11)).
  { unfold B64.generateProfile.
    rewrite (loop64_runs Math_exp Math_pow _ _ 11);
      [reflexivity | lia | | vm_compute; reflexivity].
    apply running_checked. vm_compute. reflexivity. }
  destruct (generateProfile_in_range_not_clamped Math_exp Math_pow
              12 0%float 1%float 0.1%float _
              eq_refl eq_refl eq_refl Hrun 8%nat) as (_ & _ & Hr).
  - unfold B64.profile_samples. rewrite length_map, length_seq. lia.
  - exact Hr.
Defined.

End Binary64InRange.
